(** * Container lifecycle and port allocation of trainings-api-hub

    A shallow embedding of [packages/main-backend/src/services/DockerService.ts]
    and of the instance routes [packages/main-backend/src/routes/instanceRoutes.ts].

    The persistent state ([World]) is the instance record store (the Prisma
    table [api_instances]), the containers known to the Docker runtime, and
    the log of the runtime calls made so far.  Everything that the code
    cannot observe in that state (whether a runtime or database call fails,
    which identifiers are generated, the clock) is an oracle [Env] given to
    each request.  Async functions with [try]/[catch] are written in a small
    state-and-exception monad [M]. *)

From Stdlib Require Import String Ascii List ZArith Bool Lia.
From Stdlib Require Import DecimalString Sorted.
Import ListNotations.

Local Open Scope string_scope.
Local Open Scope Z_scope.

(** ** Values thrown by the code *)

(** [throw new Error(m)] is [ErrorObj m]; [throw new ApiError(m, code)] is
    [ApiErrorObj m code]; anything else thrown is [NonError]. *)
Inductive Exn :=
| ErrorObj (message : string)
| ApiErrorObj (message : string) (statusCode : Z)
| NonError.

(** [error instanceof Error ? error.message : 'Unknown error'] *)
Definition errMessage (e : Exn) : string :=
  match e with
  | ErrorObj m => m
  | ApiErrorObj m _ => m
  | NonError => "Unknown error"
  end.

Definition isApiError (e : Exn) : bool :=
  match e with ApiErrorObj _ _ => true | _ => false end.

(** [`${n}`] for an integer [n]. *)
Definition Z_to_string (n : Z) : string :=
  NilZero.string_of_int (Z.to_int n).

(** ** Persistent state *)

(** A row of [api_instances] ([prisma/schema.prisma]); [status] is a string
    column (["CREATING"], ["RUNNING"], ["STOPPED"], ...). [updatedAt] is
    maintained by Prisma and not read by the code, it is left out. *)
Record ApiInstance := mkInstance {
  id : string;
  userId : string;
  containerId : string;
  containerName : string;
  url : string;
  port : Z;
  status : string;
  createdAt : Z;
  stoppedAt : option Z
}.

(** A Docker container as the runtime holds it: its id, name, whether it
    runs, its raw state string, the host port bound to the container port
    [3000/tcp], and the value of its label [api-hub.service]. *)
Record Container := mkContainer {
  cId : string;
  cName : string;
  cRunning : bool;
  cState : string;
  cHostPort : Z;
  cServiceLabel : option string
}.

(** The runtime calls, as recorded in the log. *)
Inductive RtCall :=
| CallPing
| CallList
| CallListLabel
| CallCreate (hostPort : Z)
| CallStart (ref : string)
| CallStop (ref : string)
| CallInspect (ref : string)
| CallRemove (ref : string).

Record World := mkWorld {
  records : list ApiInstance;
  containers : list Container;
  rt_log : list RtCall
}.

Definition set_records (rs : list ApiInstance) (w : World) : World :=
  mkWorld rs (containers w) (rt_log w).
Definition set_containers (cs : list Container) (w : World) : World :=
  mkWorld (records w) cs (rt_log w).
Definition add_log (c : RtCall) (w : World) : World :=
  mkWorld (records w) (containers w) (rt_log w ++ [c]).

(** The database calls of the code, used to say which of them fail. *)
Inductive DbCall :=
| FindActivePorts
| CreateInstance
| UpdateInstance
| FindInstances
| FindAllContainerIds.

(** The oracle of a request: the failures of external calls, the generated
    identifiers and the clock. [list_fault p] is the outcome of the
    container listing made while [isPortInUse(p)] runs. *)
Record Env := mkEnv {
  ping_fault : option Exn;
  list_fault : Z -> option Exn;
  label_list_fault : option Exn;
  create_fault : Z -> option Exn;
  start_fault : string -> option Exn;
  stop_fault : string -> option Exn;
  inspect_fault : string -> option Exn;
  remove_fault : string -> option Exn;
  db_fault : DbCall -> option Exn;
  fresh_container_id : string;
  fresh_instance_id : string;
  now : Z;
  base_url : string
}.

(** ** The monad of async functions *)

Inductive Res (A : Type) := Ok (a : A) | Throw (e : Exn).
Arguments Ok {A} a.
Arguments Throw {A} e.

Definition M (A : Type) := World -> Res A * World.

Definition ret {A} (a : A) : M A := fun w => (Ok a, w).
Definition bind {A B} (m : M A) (k : A -> M B) : M B :=
  fun w => match m w with
           | (Ok a, w') => k a w'
           | (Throw e, w') => (Throw e, w')
           end.
Definition throw {A} (e : Exn) : M A := fun w => (Throw e, w).
Definition try_catch {A} (m : M A) (h : Exn -> M A) : M A :=
  fun w => match m w with
           | (Ok a, w') => (Ok a, w')
           | (Throw e, w') => h e w'
           end.
Definition get : M World := fun w => (Ok w, w).
Definition modify (f : World -> World) : M unit := fun w => (Ok tt, f w).

Notation "x <- m ;; k" := (bind m (fun x => k))
  (at level 61, m at next level, right associativity).
Notation "m ;; k" := (bind m (fun _ => k))
  (at level 61, right associativity).

(** [Promise.all(xs.map(f))], the calls taken in order. *)
Fixpoint mapM {A B} (f : A -> M B) (xs : list A) : M (list B) :=
  match xs with
  | [] => ret []
  | x :: xs' => y <- f x ;; ys <- mapM f xs' ;; ret (y :: ys)
  end.

(** [for (const x of xs) await f(x)] *)
Fixpoint forEach {A} (f : A -> M unit) (xs : list A) : M unit :=
  match xs with
  | [] => ret tt
  | x :: xs' => f x ;; forEach f xs'
  end.

(** ** The external collaborators *)

Section Runtime.

Variable env : Env.

(** *** Docker (dockerode) *)

(** An entry of [docker.listContainers()]: the id, the published host
    ports ([Ports[].PublicPort]; Docker publishes them only while the
    container runs) and the service label. *)
Record ContainerInfo := mkInfo {
  ciId : string;
  ciPorts : list Z;
  ciServiceLabel : option string
}.

Definition to_info (c : Container) : ContainerInfo :=
  mkInfo (cId c) (if cRunning c then [cHostPort c] else []) (cServiceLabel c).

Definition find_container (ref : string) (cs : list Container) : option Container :=
  find (fun c => String.eqb (cId c) ref) cs.

Definition no_such_container (ref : string) : Exn :=
  ErrorObj ("(HTTP code 404) no such container - No such container: " ++ ref).

Definition or_throw (f : option Exn) : M unit :=
  match f with Some e => throw e | None => ret tt end.

(** Looks the container up, throwing Docker's 404 when it does not exist. *)
Definition lookup_container (ref : string) : M Container :=
  w <- get ;;
  match find_container ref (containers w) with
  | Some c => ret c
  | None => throw (no_such_container ref)
  end.

Definition update_container (ref : string) (f : Container -> Container) : M unit :=
  modify (fun w => set_containers
    (map (fun c => if String.eqb (cId c) ref then f c else c) (containers w)) w).

(** [docker.ping()] *)
Definition docker_ping : M unit :=
  modify (add_log CallPing) ;; or_throw (ping_fault env).

(** [docker.listContainers({ all: true })], called by [isPortInUse(p)]. *)
Definition docker_listContainers_all (p : Z) : M (list ContainerInfo) :=
  modify (add_log CallList) ;;
  or_throw (list_fault env p) ;;
  w <- get ;;
  ret (map to_info (containers w)).

(** The label filter [api-hub.service=dummy-api]. *)
Definition has_service_label (c : Container) : bool :=
  match cServiceLabel c with
  | Some v => String.eqb v "dummy-api"
  | None => false
  end.

(** [docker.listContainers({ all: true, filters: { label: ['api-hub.service=dummy-api'] } })] *)
Definition docker_listContainers_label : M (list ContainerInfo) :=
  modify (add_log CallListLabel) ;;
  or_throw (label_list_fault env) ;;
  w <- get ;;
  ret (map to_info (filter has_service_label (containers w))).

(** [docker.createContainer(config)] with host port [hostPort] bound to
    [3000/tcp]: a fresh, not started container; a name already taken is
    Docker's 409 conflict. *)
Definition docker_createContainer (name : string) (hostPort : Z) : M string :=
  modify (add_log (CallCreate hostPort)) ;;
  or_throw (create_fault env hostPort) ;;
  w <- get ;;
  if existsb (fun c => String.eqb (cName c) name) (containers w)
  then throw (ErrorObj ("(HTTP code 409) unexpected - Conflict. The container name " ++ name ++ " is already in use"))
  else
    let ref := fresh_container_id env in
    modify (set_containers
      (containers w ++ [mkContainer ref name false "created" hostPort (Some "dummy-api")])) ;;
    ret ref.

(** [container.start()] *)
Definition container_start (ref : string) : M unit :=
  modify (add_log (CallStart ref)) ;;
  _ <- lookup_container ref ;;
  or_throw (start_fault env ref) ;;
  update_container ref (fun c => mkContainer (cId c) (cName c) true "running"
                                   (cHostPort c) (cServiceLabel c)).

(** [container.stop({ t: 10 })]; stopping a stopped container is Docker's 304. *)
Definition container_stop (ref : string) : M unit :=
  modify (add_log (CallStop ref)) ;;
  c <- lookup_container ref ;;
  or_throw (stop_fault env ref) ;;
  if cRunning c then
    update_container ref (fun c => mkContainer (cId c) (cName c) false "exited"
                                     (cHostPort c) (cServiceLabel c))
  else throw (ErrorObj "(HTTP code 304) container already stopped").

(** [container.inspect()] *)
Definition container_inspect (ref : string) : M Container :=
  modify (add_log (CallInspect ref)) ;;
  c <- lookup_container ref ;;
  or_throw (inspect_fault env ref) ;;
  ret c.

(** [container.remove({ force: true })] *)
Definition container_remove_force (ref : string) : M unit :=
  modify (add_log (CallRemove ref)) ;;
  _ <- lookup_container ref ;;
  or_throw (remove_fault env ref) ;;
  modify (fun w => set_containers
    (filter (fun c => negb (String.eqb (cId c) ref)) (containers w)) w).

(** *** The record store (Prisma) *)

Definition is_active (r : ApiInstance) : bool :=
  String.eqb (status r) "CREATING" || String.eqb (status r) "RUNNING".

(** [findMany({ where: { status: { in: ['CREATING', 'RUNNING'] } }, select: { port: true } })] *)
Definition db_findActivePorts : M (list Z) :=
  or_throw (db_fault env FindActivePorts) ;;
  w <- get ;;
  ret (map port (filter is_active (records w))).

(** [apiInstance.create({ data })]: [id], [containerId] and
    [containerName] are unique columns. *)
Definition db_createInstance (r : ApiInstance) : M ApiInstance :=
  or_throw (db_fault env CreateInstance) ;;
  w <- get ;;
  if existsb (fun r' => String.eqb (id r') (id r)
                        || String.eqb (containerId r') (containerId r)
                        || String.eqb (containerName r') (containerName r)) (records w)
  then throw (ErrorObj "Unique constraint failed")
  else modify (set_records (records w ++ [r])) ;; ret r.

(** [apiInstance.update({ where: { id }, data })], [data] given as [f]. *)
Definition db_updateInstance (iid : string) (f : ApiInstance -> ApiInstance) : M unit :=
  or_throw (db_fault env UpdateInstance) ;;
  w <- get ;;
  if existsb (fun r => String.eqb (id r) iid) (records w)
  then modify (set_records
         (map (fun r => if String.eqb (id r) iid then f r else r) (records w)))
  else throw (ErrorObj "Record to update not found.").

Definition with_status (s : string) (r : ApiInstance) : ApiInstance :=
  mkInstance (id r) (userId r) (containerId r) (containerName r) (url r)
             (port r) s (createdAt r) (stoppedAt r).

Definition with_stopped (t : Z) (r : ApiInstance) : ApiInstance :=
  mkInstance (id r) (userId r) (containerId r) (containerName r) (url r)
             (port r) "STOPPED" (createdAt r) (Some t).

Definition not_stopped (r : ApiInstance) : bool :=
  match stoppedAt r with None => true | Some _ => false end.

(** [findFirst({ where: { id, userId, stoppedAt: null } })] *)
Definition db_findFirstInstance (iid uid : string) : M (option ApiInstance) :=
  or_throw (db_fault env FindInstances) ;;
  w <- get ;;
  ret (find (fun r => String.eqb (id r) iid && String.eqb (userId r) uid
                      && not_stopped r) (records w)).

Fixpoint insert_desc (r : ApiInstance) (rs : list ApiInstance) : list ApiInstance :=
  match rs with
  | [] => [r]
  | r' :: rs' => if createdAt r' <? createdAt r then r :: rs
                 else r' :: insert_desc r rs'
  end.

(** [findMany({ where: { userId, stoppedAt: null }, orderBy: { createdAt: 'desc' } })] *)
Definition db_findInstances (uid : string) : M (list ApiInstance) :=
  or_throw (db_fault env FindInstances) ;;
  w <- get ;;
  ret (fold_right insert_desc []
         (filter (fun r => String.eqb (userId r) uid && not_stopped r) (records w))).

(** [findMany({ select: { containerId: true } })] *)
Definition db_findAllContainerIds : M (list string) :=
  or_throw (db_fault env FindAllContainerIds) ;;
  w <- get ;;
  ret (map containerId (records w)).

End Runtime.

(** ** [DockerService] *)

Section DockerService.

Variable env : Env.

Definition MIN_PORT : Z := 3001.
Definition MAX_PORT : Z := 4000.
Definition CONTAINER_PORT : Z := 3000.

(** [new Error(prefix + message)] rethrown from a [catch] block. *)
Definition rethrow_with {A} (prefix : string) (e : Exn) : M A :=
  throw (ErrorObj (prefix ++ errMessage e)).

(** [initialize()] *)
Definition initialize : M unit :=
  try_catch (docker_ping env)
    (fun _ => throw (ErrorObj "Docker daemon is not available")).

(** [isPortInUse(port)]: [false] when the listing fails. *)
Definition isPortInUse (p : Z) : M bool :=
  try_catch
    (cs <- docker_listContainers_all env p ;;
     ret (existsb (fun ci => existsb (fun pub => Z.eqb pub p) (ciPorts ci)) cs))
    (fun _ => ret false).

(** [No available ports in range 3001-4000] *)
Definition no_ports_message : string :=
  "No available ports in range " ++ Z_to_string MIN_PORT ++ "-" ++ Z_to_string MAX_PORT.

(** The loop [for (let port = MIN_PORT; port <= MAX_PORT; port++)] of
    [allocatePort], from candidate [p] with [n] candidates left, and the
    [throw] after it. *)
Fixpoint scan_ports (usedPorts : list Z) (p : Z) (n : nat) : M Z :=
  match n with
  | O => throw (ErrorObj no_ports_message)
  | S n' =>
      if negb (existsb (Z.eqb p) usedPorts) then
        inUse <- isPortInUse p ;;
        if negb inUse then ret p else scan_ports usedPorts (p + 1) n'
      else scan_ports usedPorts (p + 1) n'
  end.

Definition port_range_length : nat := Z.to_nat (MAX_PORT - MIN_PORT + 1).

(** [allocatePort()] *)
Definition allocatePort : M Z :=
  try_catch
    (usedPorts <- db_findActivePorts env ;;
     scan_ports usedPorts MIN_PORT port_range_length)
    (rethrow_with "Port allocation failed: ").

(** The [ContainerInfo] returned by [createContainer]. *)
Record CreatedInfo := mkCreated {
  ci_containerId : string;
  ci_containerName : string;
  ci_port : Z;
  ci_url : string;
  ci_status : string
}.

(** [createContainer(config)]; the body of the request only reaches the
    container's environment variables, which are not modelled. *)
Definition createContainer (uid : string) : M CreatedInfo :=
  try_catch
    (p <- allocatePort ;;
     let containerName := "api-instance-" ++ uid ++ "-" ++ Z_to_string (now env) in
     ref <- docker_createContainer env containerName p ;;
     let u := base_url env ++ ":" ++ Z_to_string p in
     ret (mkCreated ref containerName p u "created"))
    (rethrow_with "Container creation failed: ").

(** [startContainer(containerId)] *)
Definition startContainer (ref : string) : M unit :=
  try_catch (container_start env ref) (rethrow_with "Container start failed: ").

(** [stopContainer(containerId)] *)
Definition stopContainer (ref : string) : M unit :=
  try_catch (container_stop env ref) (rethrow_with "Container stop failed: ").

(** [removeContainer(containerId)] *)
Definition removeContainer (ref : string) : M unit :=
  try_catch
    (try_catch
       (info <- container_inspect env ref ;;
        if cRunning info then stopContainer ref else ret tt)
       (fun _ => ret tt) ;;
     container_remove_force env ref)
    (rethrow_with "Container removal failed: ").

(** The [ContainerStatus] interface. *)
Record ContainerStatus := mkStatus {
  cs_id : string;
  cs_status : string;
  cs_running : bool;
  cs_port : option Z;
  cs_error : option string
}.

(** [NetworkSettings.Ports['3000/tcp'][0].HostPort]: bound while the
    container runs. *)
Definition inspected_port (c : Container) : option Z :=
  if cRunning c then Some (cHostPort c) else None.

(** [getContainerStatus(containerId)] *)
Definition getContainerStatus (ref : string) : M ContainerStatus :=
  try_catch
    (info <- container_inspect env ref ;;
     ret (mkStatus ref (cState info) (cRunning info) (inspected_port info) None))
    (fun e => ret (mkStatus ref "error" false None (Some (errMessage e)))).

(** The body of the loop of [cleanupOrphanedContainers], for the
    container ids [dbContainerIds] of the records. *)
Definition reap_one (dbContainerIds : list string) (ci : ContainerInfo) : M unit :=
  if negb (existsb (String.eqb (ciId ci)) dbContainerIds) then
    try_catch (removeContainer (ciId ci)) (fun _ => ret tt)
  else ret tt.

(** [cleanupOrphanedContainers()] *)
Definition cleanupOrphanedContainers : M unit :=
  try_catch
    (cs <- docker_listContainers_label env ;;
     dbContainerIds <- db_findAllContainerIds env ;;
     forEach (reap_one dbContainerIds) cs)
    (fun _ => ret tt).

End DockerService.

(** ** The instance routes *)

Section InstanceRoutes.

Variable env : Env.

(** [String.prototype.toUpperCase] on ASCII. *)
Definition ascii_upper (c : ascii) : ascii :=
  let n := nat_of_ascii c in
  if (97 <=? n)%nat && (n <=? 122)%nat then ascii_of_nat (n - 32) else c.

Fixpoint toUpperCase (s : string) : string :=
  match s with
  | EmptyString => EmptyString
  | String c s' => String (ascii_upper c) (toUpperCase s')
  end.

(** An entry of the listing sent back by [GET /api/instances]. *)
Record Entry := mkEntry {
  e_id : string;
  e_containerId : string;
  e_containerName : string;
  e_url : string;
  e_port : Z;
  e_status : string;
  e_createdAt : Z
}.

Definition entry_of (r : ApiInstance) (s : string) : Entry :=
  mkEntry (id r) (containerId r) (containerName r) (url r) (port r) s (createdAt r).

(** The successful responses. *)
Inductive Reply :=
| Created (inst : ApiInstance)
| Listed (entries : list Entry)
| Deleted.

Definition authenticated (user : option string) (k : string -> M Reply) : M Reply :=
  match user with
  | None => throw (ApiErrorObj "User authentication required" 401)
  | Some uid => k uid
  end.

(** [POST /api/instances] *)
Definition create_instance (user : option string) : M Reply :=
  authenticated user (fun uid =>
    try_catch
      (initialize env ;;
       info <- createContainer env uid ;;
       inst <- db_createInstance env
                 (mkInstance (fresh_instance_id env) uid (ci_containerId info)
                    (ci_containerName info) (ci_url info) (ci_port info)
                    "CREATING" (now env) None) ;;
       startContainer env (ci_containerId info) ;;
       db_updateInstance env (id inst) (with_status "RUNNING") ;;
       ret (Created (with_status "RUNNING" inst)))
      (fun e => throw (ApiErrorObj ("Failed to create instance: " ++ errMessage e) 500))).

(** The status reported for an instance, [status.running ? 'RUNNING' :
    status.status.toUpperCase()]. *)
Definition reported_status (st : ContainerStatus) : string :=
  if cs_running st then "RUNNING" else toUpperCase (cs_status st).

(** The function mapped over the instances by [GET /api/instances]. *)
Definition list_entry (inst : ApiInstance) : M Entry :=
  try_catch
    (st <- getContainerStatus env (containerId inst) ;;
     ret (entry_of inst (reported_status st)))
    (fun _ => ret (entry_of inst "ERROR")).

(** [GET /api/instances] *)
Definition list_instances (user : option string) : M Reply :=
  authenticated user (fun uid =>
    try_catch
      (instances <- db_findInstances env uid ;;
       entries <- mapM list_entry instances ;;
       ret (Listed entries))
      (fun e => throw (ApiErrorObj ("Failed to fetch instances: " ++ errMessage e) 500))).

(** [DELETE /api/instances/:id] *)
Definition delete_instance (user : option string) (iid : string) : M Reply :=
  authenticated user (fun uid =>
    if String.eqb iid "" then throw (ApiErrorObj "Instance ID is required" 400) else
    try_catch
      (found <- db_findFirstInstance env iid uid ;;
       match found with
       | None => throw (ApiErrorObj "Instance not found" 404)
       | Some inst =>
           removeContainer env (containerId inst) ;;
           db_updateInstance env (id inst) (with_stopped (now env)) ;;
           ret Deleted
       end)
      (fun e => if isApiError e then throw e
                else throw (ApiErrorObj ("Failed to delete instance: " ++ errMessage e) 500))).

End InstanceRoutes.

(** ** Sequential executions *)

(** One request or one reaper run, with the oracle of that request. *)
Inductive step : World -> World -> Prop :=
| step_create (env : Env) (user : option string) (w : World) :
    step w (snd (create_instance env user w))
| step_delete (env : Env) (user : option string) (iid : string) (w : World) :
    step w (snd (delete_instance env user iid w))
| step_list (env : Env) (user : option string) (w : World) :
    step w (snd (list_instances env user w))
| step_reap (env : Env) (w : World) :
    step w (snd (cleanupOrphanedContainers env w)).

(** States reached from an empty record store. *)
Inductive reachable : World -> Prop :=
| reach_init (cs : list Container) (l : list RtCall) : reachable (mkWorld [] cs l)
| reach_step (w w' : World) : reachable w -> step w w' -> reachable w'.

(** No two distinct records with status [CREATING] or [RUNNING] share a port. *)
Definition active_ports_distinct (rs : list ApiInstance) : Prop :=
  forall i j r1 r2,
    i <> j -> nth_error rs i = Some r1 -> nth_error rs j = Some r2 ->
    is_active r1 = true -> is_active r2 = true -> port r1 <> port r2.

(** ** [GET /api/instances/:id] and [GET /api/instances/:id/logs] *)

(** [parseInt(s)] (no radix) on an ASCII string, as an exact integer;
    [None] is [NaN]. *)
Definition js_whitespace (c : ascii) : bool :=
  let n := nat_of_ascii c in
  (n =? 32)%nat || ((9 <=? n)%nat && (n <=? 13)%nat).

Fixpoint trim_start (s : string) : string :=
  match s with
  | EmptyString => EmptyString
  | String c s' => if js_whitespace c then trim_start s' else s
  end.

(** The value of a character as a digit of radix at most 36. *)
Definition digit_value (c : ascii) : option Z :=
  let n := Z.of_nat (nat_of_ascii c) in
  if (48 <=? n) && (n <=? 57) then Some (n - 48)
  else if (97 <=? n) && (n <=? 122) then Some (n - 87)
  else if (65 <=? n) && (n <=? 90) then Some (n - 55)
  else None.

Definition radix_digit (r : Z) (c : ascii) : option Z :=
  match digit_value c with
  | Some d => if d <? r then Some d else None
  | None => None
  end.

(** The value of the longest prefix of radix-[r] digits, [None] when it is
    empty. *)
Fixpoint digits_value (r : Z) (s : string) (acc : Z) (seen : bool) : option Z :=
  match s with
  | EmptyString => if seen then Some acc else None
  | String c s' =>
      match radix_digit r c with
      | Some d => digits_value r s' (acc * r + d) true
      | None => if seen then Some acc else None
      end
  end.

Definition parseInt (s : string) : option Z :=
  let s1 := trim_start s in
  let '(sign, s2) :=
    match s1 with
    | String "-"%char s' => (-1, s')
    | String "+"%char s' => (1, s')
    | _ => (1, s1)
    end in
  let '(r, s3) :=
    match s2 with
    | String "0"%char (String x s') =>
        if Ascii.eqb x "x"%char || Ascii.eqb x "X"%char then (16, s') else (10, s2)
    | _ => (10, s2)
    end in
  option_map (fun v => sign * v) (digits_value r s3 0 false).

(** [tail ? parseInt(tail as string) : 100] for the query parameter [tail]. *)
Definition tail_arg (tail : option string) : option Z :=
  match tail with
  | Some s => if String.eqb s "" then Some 100 else parseInt s
  | None => Some 100
  end.

Section MoreRoutes.

Variable env : Env.

(** The daemon's answer to [container.logs({ stdout: true, stderr: true,
    tail, timestamps: true })] on an existing container, after
    [logs.toString()]. The call is a read and is not entered in the log. *)
Variable logs_of : string -> option Z -> Res string.

Definition container_logs (ref : string) (tail : option Z) : M string :=
  _ <- lookup_container ref ;;
  match logs_of ref tail with
  | Ok s => ret s
  | Throw e => throw e
  end.

(** [getContainerLogs(containerId, tail)] *)
Definition getContainerLogs (ref : string) (tail : option Z) : M string :=
  try_catch (container_logs ref tail) (rethrow_with "Failed to get container logs: ").

(** [findFirst({ where: { id, userId } })], without the [stoppedAt] filter. *)
Definition db_findFirstOwned (iid uid : string) : M (option ApiInstance) :=
  or_throw (db_fault env FindInstances) ;;
  w <- get ;;
  ret (find (fun r => String.eqb (id r) iid && String.eqb (userId r) uid) (records w)).

(** The successful responses of the two routes. *)
Inductive DetailReply :=
| Fetched (entry : Entry)
| FetchedLogs (logs : string) (containerId : string).

Definition require_user {A} (user : option string) (k : string -> M A) : M A :=
  match user with
  | None => throw (ApiErrorObj "User authentication required" 401)
  | Some uid => k uid
  end.

(** [GET /api/instances/:id] *)
Definition get_instance (user : option string) (iid : string) : M DetailReply :=
  require_user user (fun uid =>
    if String.eqb iid "" then throw (ApiErrorObj "Instance ID is required" 400) else
    try_catch
      (found <- db_findFirstInstance env iid uid ;;
       match found with
       | None => throw (ApiErrorObj "Instance not found" 404)
       | Some inst =>
           st <- getContainerStatus env (containerId inst) ;;
           ret (Fetched (entry_of inst (reported_status st)))
       end)
      (fun e => if isApiError e then throw e
                else throw (ApiErrorObj ("Failed to fetch instance: " ++ errMessage e) 500))).

(** [GET /api/instances/:id/logs] *)
Definition get_logs (user : option string) (iid : string) (tail : option string)
  : M DetailReply :=
  require_user user (fun uid =>
    if String.eqb iid "" then throw (ApiErrorObj "Instance ID is required" 400) else
    try_catch
      (found <- db_findFirstOwned iid uid ;;
       match found with
       | None => throw (ApiErrorObj "Instance not found" 404)
       | Some inst =>
           logs <- getContainerLogs (containerId inst) (tail_arg tail) ;;
           ret (FetchedLogs logs (containerId inst))
       end)
      (fun e => if isApiError e then throw e
                else throw (ApiErrorObj ("Failed to fetch logs: " ++ errMessage e) 500))).

End MoreRoutes.

(** ** The error middleware *)

(** The body fields of the error response that depend on the error. *)
Record ErrorResponse := mkErrorResponse {
  er_status : Z;
  er_error : string;
  er_details : option string
}.

(** [errorHandler(error, req, res, next)] under [NODE_ENV = node_env]. The
    routes build every [ApiError] with [isOperational] left at its default
    [true]; an [Error] has the name ["Error"] and a thrown non-[Error] has
    no name of the cases, so neither takes a named branch. *)
Definition errorHandler (node_env : string) (e : Exn) : ErrorResponse :=
  let '(statusCode, message, isOperational) :=
    match e with
    | ApiErrorObj m c => (c, m, true)
    | _ => (500, "Internal Server Error", false)
    end in
  let message :=
    if String.eqb node_env "production" && negb isOperational
    then "Something went wrong" else message in
  let details :=
    if String.eqb node_env "development"
    then match e with
         | ErrorObj m => Some m
         | ApiErrorObj m _ => Some m
         | NonError => None
         end
    else None in
  mkErrorResponse statusCode message details.

(** ** Auxiliary definitions of the proofs *)

Definition keeps_records {A} (m : M A) : Prop :=
  forall w, records (snd (m w)) = records w.

(** The ports of the records with status [CREATING] or [RUNNING]. *)
Definition store_active_ports (w : World) : list Z :=
  map port (filter is_active (records w)).

(** What the runtime reports to the listing made for candidate [p]: the
    containers, or nothing when the listing fails. *)
Definition runtime_listing (env : Env) (cs : list Container) (p : Z)
  : option (list ContainerInfo) :=
  match list_fault env p with
  | Some _ => None
  | None => Some (map to_info cs)
  end.

(** Port [p] is published by a container of the listing made for [p]. *)
Definition bound_live (env : Env) (cs : list Container) (p : Z) : Prop :=
  exists l ci, runtime_listing env cs p = Some l /\ In ci l /\ In p (ciPorts ci).

(** The error of an exhausted range. *)
Definition NoCapacity : Exn :=
  ErrorObj ("Port allocation failed: " ++ no_ports_message).

Definition port_in_use_b (env : Env) (cs : list Container) (p : Z) : bool :=
  match list_fault env p with
  | Some _ => false
  | None => existsb (fun ci => existsb (fun pub => Z.eqb pub p) (ciPorts ci))
                    (map to_info cs)
  end.

Definition update_by_id (iid : string) (f : ApiInstance -> ApiInstance)
  (rs : list ApiInstance) : list ApiInstance :=
  map (fun r => if String.eqb (id r) iid then f r else r) rs.

(** What [container.inspect()] answers on containers [cs]. *)
Definition inspect_res (env : Env) (cs : list Container) (ref : string) : Res Container :=
  match find_container ref cs with
  | None => Throw (no_such_container ref)
  | Some c => match inspect_fault env ref with
              | Some e => Throw e
              | None => Ok c
              end
  end.

(** A listed container is an orphan: its id is in no record. *)
Definition orphan_info (ids : list string) (ci : ContainerInfo) : bool :=
  negb (existsb (String.eqb (ciId ci)) ids).

(** The [ContainerStatus] built from an inspection outcome. *)
Definition status_of (ref : string) (r : Res Container) : ContainerStatus :=
  match r with
  | Ok info => mkStatus ref (cState info) (cRunning info) (inspected_port info) None
  | Throw e => mkStatus ref "error" false None (Some (errMessage e))
  end.

(** Neither the record store nor the runtime's containers change. *)
Definition keeps_store {A} (m : M A) : Prop :=
  forall w, records (snd (m w)) = records w /\ containers (snd (m w)) = containers w.

(** A result is not a thrown [ApiError]. *)
Definition no_api {A} (r : Res A) : bool :=
  match r with
  | Ok _ => true
  | Throw e => negb (isApiError e)
  end.

(** A computation that never throws an [ApiError]. *)
Definition NoApi {A} (m : M A) : Prop := forall w, no_api (fst (m w)) = true.

(** A failure reaches the client as the [ApiError]'s own status, one of
    [codes], and message, whatever [NODE_ENV] is. *)
Definition fails_reported {A} (node_env : string) (codes : list Z) (r : Res A) : Prop :=
  match r with
  | Ok _ => True
  | Throw e => exists m c, e = ApiErrorObj m c /\ In c codes /\
                           er_status (errorHandler node_env e) = c /\
                           er_error (errorHandler node_env e) = m
  end.

(** ** Concrete requests and states *)

(** A request in which every external call succeeds. *)
Definition env_ok : Env :=
  mkEnv None (fun _ => None) None (fun _ => None) (fun _ => None) (fun _ => None)
        (fun _ => None) (fun _ => None) (fun _ => None)
        "c1" "i1" 1000 "http://localhost".

Definition bind_error : Exn :=
  ErrorObj "(HTTP code 500) server error - Bind for 0.0.0.0:3001 failed: port is already allocated".

(** The runtime refuses to start the new container. *)
Definition env_start_fails : Env :=
  mkEnv None (fun _ => None) None (fun _ => None) (fun _ => Some bind_error) (fun _ => None)
        (fun _ => None) (fun _ => None) (fun _ => None)
        "c1" "i1" 1000 "http://localhost".

(** The runtime refuses to create a container on host port 3001. *)
Definition env_create_fails : Env :=
  mkEnv None (fun _ => None) None
        (fun p => if Z.eqb p 3001 then Some bind_error else None)
        (fun _ => None) (fun _ => None)
        (fun _ => None) (fun _ => None) (fun _ => None)
        "c1" "i1" 1000 "http://localhost".

(** Every container listing of the allocator fails. *)
Definition env_listing_down : Env :=
  mkEnv None (fun _ => Some (ErrorObj "connect ENOENT /var/run/docker.sock")) None
        (fun _ => None) (fun _ => None) (fun _ => None)
        (fun _ => None) (fun _ => None) (fun _ => None)
        "c1" "i1" 1000 "http://localhost".

Definition world_empty : World := mkWorld [] [] [].

(** A later request of another user, with its own identifiers and clock. *)
Definition env_second : Env :=
  mkEnv None (fun _ => None) None (fun _ => None) (fun _ => None) (fun _ => None)
        (fun _ => None) (fun _ => None) (fun _ => None)
        "c2" "i2" 2000 "http://localhost".

(** The runtime listing fails only while port 3002 is checked. *)
Definition env_listing_partial : Env :=
  mkEnv None (fun p => if Z.eqb p 3002
                       then Some (ErrorObj "connect ENOENT /var/run/docker.sock") else None)
        None (fun _ => None) (fun _ => None) (fun _ => None)
        (fun _ => None) (fun _ => None) (fun _ => None)
        "c1" "i1" 1000 "http://localhost".

(** Two successful creates from an empty store. *)
Definition world_one_created : World := snd (create_instance env_ok (Some "u") world_empty).
Definition world_two_created : World :=
  snd (create_instance env_second (Some "v") world_one_created).

Definition instance_abc (s : string) (stopped : option Z) : ApiInstance :=
  mkInstance "i1" "u" "abc" "api-instance-u-1000" "http://localhost:3001" 3001 s 1000 stopped.

Definition container_abc (running : bool) : Container :=
  mkContainer "abc" "api-instance-u-1000" running (if running then "running" else "exited")
              3001 (Some "dummy-api").

(** A running record whose container was removed out of band. *)
Definition world_missing_container : World :=
  mkWorld [instance_abc "RUNNING" None] [] [].

(** One stopped sandbox container and no record. *)
Definition world_one_container : World :=
  mkWorld [] [container_abc false] [].

(** A stopped record and its container, still present. *)
Definition world_stopped_record : World :=
  mkWorld [instance_abc "STOPPED" (Some 2000)] [container_abc false] [].

(** Port 3001 held by an active record, 3002 published by a foreign container. *)
Definition world_busy_ports : World :=
  mkWorld [instance_abc "RUNNING" None]
          [container_abc true; mkContainer "zzz" "other" true "running" 3002 None] [].

(** The daemon's logs: one line for every container. *)
Definition logs_ok : string -> option Z -> Res string := fun _ _ => Ok "2025-01-01T00:00:00Z ready".

(** Every database query fails with Prisma's connection error. *)
Definition env_db_down : Env :=
  mkEnv None (fun _ => None) None (fun _ => None) (fun _ => None) (fun _ => None)
        (fun _ => None) (fun _ => None)
        (fun _ => Some (ErrorObj "Can't reach database server at localhost:5432"))
        "c1" "i1" 1000 "http://localhost".

(** The insert of the new record fails. *)
Definition env_insert_fails : Env :=
  mkEnv None (fun _ => None) None (fun _ => None) (fun _ => None) (fun _ => None)
        (fun _ => None) (fun _ => None)
        (fun d => match d with
                  | CreateInstance => Some (ErrorObj "Can't reach database server at localhost:5432")
                  | _ => None
                  end)
        "c1" "i1" 1000 "http://localhost".

(** The runtime refuses to stop any container. *)
Definition env_stop_fails : Env :=
  mkEnv None (fun _ => None) None (fun _ => None) (fun _ => None)
        (fun _ => Some (ErrorObj "(HTTP code 500) server error - cannot stop container"))
        (fun _ => None) (fun _ => None) (fun _ => None)
        "c1" "i1" 1000 "http://localhost".

(** The Docker daemon does not answer. *)
Definition env_daemon_down : Env :=
  mkEnv (Some (ErrorObj "connect ENOENT /var/run/docker.sock")) (fun _ => None) None
        (fun _ => None) (fun _ => None) (fun _ => None)
        (fun _ => None) (fun _ => None) (fun _ => None)
        "c1" "i1" 1000 "http://localhost".

(** A running record and its running container. *)
Definition world_running : World :=
  mkWorld [instance_abc "RUNNING" None] [container_abc true] [].

(** ** Frame lemmas: the runtime side never writes the record store *)

Lemma kr_ret {A} (a : A) : keeps_records (ret a).
Proof. intro w; reflexivity. Qed.

Lemma kr_throw {A} (e : Exn) : keeps_records (@throw A e).
Proof. intro w; reflexivity. Qed.

Lemma kr_get : keeps_records get.
Proof. intro w; reflexivity. Qed.

Lemma kr_modify (f : World -> World) :
  (forall w, records (f w) = records w) -> keeps_records (modify f).
Proof. intros Hf w; apply Hf. Qed.

Lemma kr_bind {A B} (m : M A) (k : A -> M B) :
  keeps_records m -> (forall a, keeps_records (k a)) -> keeps_records (bind m k).
Proof.
  intros Hm Hk w; unfold bind.
  specialize (Hm w); destruct (m w) as [[a|e] w']; simpl in *.
  - rewrite Hk; exact Hm.
  - exact Hm.
Qed.

Lemma kr_try {A} (m : M A) (h : Exn -> M A) :
  keeps_records m -> (forall e, keeps_records (h e)) -> keeps_records (try_catch m h).
Proof.
  intros Hm Hh w; unfold try_catch.
  specialize (Hm w); destruct (m w) as [[a|e] w']; simpl in *.
  - exact Hm.
  - rewrite Hh; exact Hm.
Qed.

Lemma kr_or_throw (f : option Exn) : keeps_records (or_throw f).
Proof. destruct f; intro w; reflexivity. Qed.

Lemma kr_mapM {A B} (f : A -> M B) (xs : list A) :
  (forall x, keeps_records (f x)) -> keeps_records (mapM f xs).
Proof.
  intro Hf; induction xs as [|x xs IH]; simpl.
  - apply kr_ret.
  - apply kr_bind; [apply Hf|intro].
    apply kr_bind; [apply IH|intro]. apply kr_ret.
Qed.

Lemma kr_forEach {A} (f : A -> M unit) (xs : list A) :
  (forall x, keeps_records (f x)) -> keeps_records (forEach f xs).
Proof.
  intro Hf; induction xs as [|x xs IH]; simpl.
  - apply kr_ret.
  - apply kr_bind; [apply Hf|intro; apply IH].
Qed.

Create HintDb keep.
#[local] Hint Resolve kr_ret kr_throw kr_get kr_or_throw : keep.

Ltac keep_solve :=
  repeat (match goal with
          | |- keeps_records (bind _ _) => apply kr_bind; [|intro]
          | |- keeps_records (try_catch _ _) => apply kr_try; [|intro]
          | |- keeps_records (modify _) => apply kr_modify; intro; reflexivity
          | |- keeps_records (mapM _ _) => apply kr_mapM; intro
          | |- keeps_records (forEach _ _) => apply kr_forEach; intro
          | |- keeps_records (match ?x with _ => _ end) => destruct x
          | |- keeps_records (let _ := _ in _) => cbv zeta
          end || auto with keep).

Lemma kr_lookup_container ref : keeps_records (lookup_container ref).
Proof. unfold lookup_container; keep_solve. Qed.
#[local] Hint Resolve kr_lookup_container : keep.

Lemma kr_docker_ping env : keeps_records (docker_ping env).
Proof. unfold docker_ping; keep_solve. Qed.

Lemma kr_docker_listContainers_all env p : keeps_records (docker_listContainers_all env p).
Proof. unfold docker_listContainers_all; keep_solve. Qed.

Lemma kr_docker_listContainers_label env : keeps_records (docker_listContainers_label env).
Proof. unfold docker_listContainers_label; keep_solve. Qed.

Lemma kr_docker_createContainer env name p : keeps_records (docker_createContainer env name p).
Proof. unfold docker_createContainer; keep_solve. Qed.

Lemma kr_container_start env ref : keeps_records (container_start env ref).
Proof. unfold container_start, update_container; keep_solve. Qed.

Lemma kr_container_stop env ref : keeps_records (container_stop env ref).
Proof. unfold container_stop, update_container; keep_solve. Qed.

Lemma kr_container_inspect env ref : keeps_records (container_inspect env ref).
Proof. unfold container_inspect; keep_solve. Qed.

Lemma kr_container_remove_force env ref : keeps_records (container_remove_force env ref).
Proof. unfold container_remove_force; keep_solve. Qed.

#[local] Hint Resolve kr_docker_ping kr_docker_listContainers_all
  kr_docker_listContainers_label kr_docker_createContainer kr_container_start
  kr_container_stop kr_container_inspect kr_container_remove_force : keep.

Lemma kr_db_findActivePorts env : keeps_records (db_findActivePorts env).
Proof. unfold db_findActivePorts; keep_solve. Qed.

Lemma kr_db_findFirstInstance env iid uid : keeps_records (db_findFirstInstance env iid uid).
Proof. unfold db_findFirstInstance; keep_solve. Qed.

Lemma kr_db_findInstances env uid : keeps_records (db_findInstances env uid).
Proof. unfold db_findInstances; keep_solve. Qed.

Lemma kr_db_findAllContainerIds env : keeps_records (db_findAllContainerIds env).
Proof. unfold db_findAllContainerIds; keep_solve. Qed.

#[local] Hint Resolve kr_db_findActivePorts kr_db_findFirstInstance
  kr_db_findInstances kr_db_findAllContainerIds : keep.

Lemma kr_initialize env : keeps_records (initialize env).
Proof. unfold initialize; keep_solve. Qed.

Lemma kr_isPortInUse env p : keeps_records (isPortInUse env p).
Proof. unfold isPortInUse; keep_solve. Qed.
#[local] Hint Resolve kr_initialize kr_isPortInUse : keep.

Lemma kr_scan_ports env used p n : keeps_records (scan_ports env used p n).
Proof.
  revert p; induction n as [|n IH]; intro p; simpl; unfold rethrow_with; keep_solve.
Qed.
#[local] Hint Resolve kr_scan_ports : keep.

Lemma kr_allocatePort env : keeps_records (allocatePort env).
Proof. unfold allocatePort, rethrow_with; keep_solve. Qed.
#[local] Hint Resolve kr_allocatePort : keep.

Lemma kr_createContainer env uid : keeps_records (createContainer env uid).
Proof. unfold createContainer, rethrow_with; keep_solve. Qed.

Lemma kr_startContainer env ref : keeps_records (startContainer env ref).
Proof. unfold startContainer, rethrow_with; keep_solve. Qed.

Lemma kr_stopContainer env ref : keeps_records (stopContainer env ref).
Proof. unfold stopContainer, rethrow_with; keep_solve. Qed.
#[local] Hint Resolve kr_createContainer kr_startContainer kr_stopContainer : keep.

Lemma kr_removeContainer env ref : keeps_records (removeContainer env ref).
Proof. unfold removeContainer, rethrow_with; keep_solve. Qed.

Lemma kr_getContainerStatus env ref : keeps_records (getContainerStatus env ref).
Proof. unfold getContainerStatus; keep_solve. Qed.
#[local] Hint Resolve kr_removeContainer kr_getContainerStatus : keep.

Lemma kr_reap_one env ids ci : keeps_records (reap_one env ids ci).
Proof. unfold reap_one; keep_solve. Qed.
#[local] Hint Resolve kr_reap_one : keep.

Lemma kr_cleanupOrphanedContainers env : keeps_records (cleanupOrphanedContainers env).
Proof. unfold cleanupOrphanedContainers; keep_solve. Qed.

Lemma kr_list_entry env inst : keeps_records (list_entry env inst).
Proof. unfold list_entry; keep_solve. Qed.
#[local] Hint Resolve kr_list_entry : keep.

Lemma kr_list_instances env user : keeps_records (list_instances env user).
Proof. unfold list_instances, authenticated; keep_solve. Qed.

(** ** Port allocation *)

Lemma existsb_Zeqb_In (p : Z) (l : list Z) :
  existsb (Z.eqb p) l = true <-> In p l.
Proof.
  rewrite existsb_exists; split.
  - intros [x [Hx Hp]]; apply Z.eqb_eq in Hp; subst; exact Hx.
  - intro H; exists p; split; [exact H|apply Z.eqb_refl].
Qed.

Lemma isPortInUse_result env p w :
  isPortInUse env p w = (Ok (port_in_use_b env (containers w) p), add_log CallList w).
Proof.
  unfold isPortInUse, port_in_use_b, docker_listContainers_all, try_catch, bind,
    modify, or_throw, get, ret, throw.
  destruct (list_fault env p); reflexivity.
Qed.

Lemma port_in_use_b_iff env cs p :
  port_in_use_b env cs p = true <-> bound_live env cs p.
Proof.
  unfold port_in_use_b, bound_live, runtime_listing.
  destruct (list_fault env p) as [e|].
  - split; [discriminate|]. intros [l [ci [H _]]]; discriminate.
  - rewrite existsb_exists; split.
    + intros [ci [Hin Hp]]. apply existsb_exists in Hp as [pub [Hpub Heq]].
      apply Z.eqb_eq in Heq; subst.
      exists (map to_info cs), ci; auto.
    + intros [l [ci [Hl [Hin Hp]]]]. injection Hl as <-.
      exists ci; split; [exact Hin|].
      apply existsb_exists; exists p; split; [exact Hp|apply Z.eqb_refl].
Qed.

Lemma scan_ports_spec env used n : forall p w,
  containers (snd (scan_ports env used p n w)) = containers w /\
  ((exists q, fst (scan_ports env used p n w) = Ok q /\
              p <= q < p + Z.of_nat n /\ ~ In q used /\
              ~ bound_live env (containers w) q /\
              forall q', p <= q' < q -> In q' used \/ bound_live env (containers w) q')
   \/ (fst (scan_ports env used p n w) = Throw (ErrorObj no_ports_message) /\
       forall q', p <= q' < p + Z.of_nat n ->
                  In q' used \/ bound_live env (containers w) q')).
Proof.
  induction n as [|n IH]; intros p w.
  - simpl. split; [reflexivity|]. right; split; [reflexivity|]. lia.
  - cbn [scan_ports].
    destruct (existsb (Z.eqb p) used) eqn:Hu; cbn [negb].
    + destruct (IH (p + 1) w) as [Hc [[q [Hr [Hq [Hnu [Hnb Hlow]]]]] | [Hr Hall]]].
      * split; [exact Hc|]. left. exists q. repeat split; auto; try lia.
        intros q' Hq'. destruct (Z.eq_dec q' p) as [->|Hne].
        -- left; apply existsb_Zeqb_In; exact Hu.
        -- apply Hlow; lia.
      * split; [exact Hc|]. right. split; [exact Hr|].
        intros q' Hq'. destruct (Z.eq_dec q' p) as [->|Hne].
        -- left; apply existsb_Zeqb_In; exact Hu.
        -- apply Hall; lia.
    + unfold bind. rewrite isPortInUse_result.
      destruct (port_in_use_b env (containers w) p) eqn:Hb; cbn [negb].
      * destruct (IH (p + 1) (add_log CallList w)) as [Hc [[q [Hr [Hq [Hnu [Hnb Hlow]]]]] | [Hr Hall]]];
          cbn [containers add_log] in *.
        -- split; [exact Hc|]. left. exists q. repeat split; auto; try lia.
           intros q' Hq'. destruct (Z.eq_dec q' p) as [->|Hne].
           ++ right; apply port_in_use_b_iff; exact Hb.
           ++ apply Hlow; lia.
        -- split; [exact Hc|]. right. split; [exact Hr|].
           intros q' Hq'. destruct (Z.eq_dec q' p) as [->|Hne].
           ++ right; apply port_in_use_b_iff; exact Hb.
           ++ apply Hall; lia.
      * split; [reflexivity|]. left. exists p. simpl. repeat split; try lia.
        -- intro H; apply existsb_Zeqb_In in H; congruence.
        -- intro H; apply port_in_use_b_iff in H; congruence.
Qed.

Lemma port_range_length_Z : Z.of_nat port_range_length = MAX_PORT - MIN_PORT + 1.
Proof. reflexivity. Qed.

Lemma allocatePort_unfold env w :
  db_fault env FindActivePorts = None ->
  allocatePort env w =
  match scan_ports env (store_active_ports w) MIN_PORT port_range_length w with
  | (Ok q, w') => (Ok q, w')
  | (Throw e, w') => (Throw (ErrorObj ("Port allocation failed: " ++ errMessage e)), w')
  end.
Proof.
  intro Hdb.
  unfold allocatePort, db_findActivePorts, try_catch, bind, or_throw, get, ret.
  rewrite Hdb. unfold store_active_ports.
  destruct (scan_ports env _ MIN_PORT port_range_length w) as [[q|e] w']; reflexivity.
Qed.

(** The allocator, when the store query succeeds. *)
Lemma allocatePort_spec env w :
  db_fault env FindActivePorts = None ->
  let used := store_active_ports w in
  records (snd (allocatePort env w)) = records w /\
  containers (snd (allocatePort env w)) = containers w /\
  ((exists q, fst (allocatePort env w) = Ok q /\
              MIN_PORT <= q <= MAX_PORT /\ ~ In q used /\
              ~ bound_live env (containers w) q /\
              forall q', MIN_PORT <= q' < q -> In q' used \/ bound_live env (containers w) q')
   \/ (fst (allocatePort env w) = Throw NoCapacity /\
       forall q, MIN_PORT <= q <= MAX_PORT -> In q used \/ bound_live env (containers w) q)).
Proof.
  intros Hdb used. split; [apply kr_allocatePort|].
  rewrite (allocatePort_unfold env w Hdb).
  destruct (scan_ports_spec env used port_range_length MIN_PORT w)
    as [Hc [[q [Hr [Hq [Hnu [Hnb Hlow]]]]] | [Hr Hall]]];
    rewrite port_range_length_Z in *; unfold used in *;
    destruct (scan_ports env _ MIN_PORT port_range_length w) as [r w'];
    cbn [fst snd] in Hr, Hc; subst r.
  - split; [exact Hc|]. left. exists q. repeat split; auto; lia.
  - split; [exact Hc|]. right. split; [reflexivity|].
    intros q Hq; apply Hall; lia.
Qed.

(** ** Inversion lemmas of the monad *)

Lemma bind_ok_inv {A B} (m : M A) (k : A -> M B) w b w' :
  bind m k w = (Ok b, w') -> exists a w1, m w = (Ok a, w1) /\ k a w1 = (Ok b, w').
Proof.
  unfold bind. destruct (m w) as [[a|e] w1]; [|discriminate]. eauto.
Qed.

Lemma try_rethrow_ok_inv {A} (m : M A) pre w a w' :
  try_catch m (rethrow_with pre) w = (Ok a, w') -> m w = (Ok a, w').
Proof.
  unfold try_catch. destruct (m w) as [[a'|e] w1]; [auto|discriminate].
Qed.

Lemma try_catch_throw_snd {A} (m : M A) (f : Exn -> Exn) w :
  snd (try_catch m (fun e => throw (f e)) w) = snd (m w).
Proof.
  unfold try_catch. destruct (m w) as [[a|e] w1]; reflexivity.
Qed.

Lemma bind_snd {A B} (m : M A) (k : A -> M B) w :
  snd (bind m k w) = match m w with
                     | (Ok a, w1) => snd (k a w1)
                     | (Throw _, w1) => w1
                     end.
Proof. unfold bind. destruct (m w) as [[a|e] w1]; reflexivity. Qed.

(** ** Effects on the record store *)

Lemma existsb_false_forall {A} (f : A -> bool) (l : list A) :
  existsb f l = false -> forall x, In x l -> f x = false.
Proof.
  intros H x Hx. destruct (f x) eqn:E; [|reflexivity].
  assert (existsb f l = true) by (apply existsb_exists; eauto). congruence.
Qed.

Lemma db_createInstance_effect env r w :
  (fst (db_createInstance env r w) = Ok r /\
   records (snd (db_createInstance env r w)) = (records w ++ [r])%list /\
   forall r', In r' (records w) -> id r' <> id r)
  \/ (exists e, fst (db_createInstance env r w) = Throw e /\
                records (snd (db_createInstance env r w)) = records w).
Proof.
  unfold db_createInstance, or_throw, bind, get, modify, ret, throw.
  destruct (db_fault env CreateInstance) as [e|]; [right; simpl; eauto|].
  destruct (existsb (fun r' => String.eqb (id r') (id r)
                               || String.eqb (containerId r') (containerId r)
                               || String.eqb (containerName r') (containerName r))
                    (records w)) eqn:E; [right; simpl; eauto|].
  left. repeat split.
  intros r' Hin Heq. apply (existsb_false_forall _ _ E) in Hin.
  rewrite Heq, String.eqb_refl in Hin. discriminate.
Qed.

Lemma db_updateInstance_effect env iid f w :
  records (snd (db_updateInstance env iid f w)) = records w \/
  records (snd (db_updateInstance env iid f w)) = update_by_id iid f (records w).
Proof.
  unfold db_updateInstance, or_throw, bind, get, modify, ret, throw.
  destruct (db_fault env UpdateInstance); [left; reflexivity|].
  destruct (existsb (fun r => String.eqb (id r) iid) (records w)); [right|left]; reflexivity.
Qed.

Lemma allocatePort_ok_free env w p w' :
  allocatePort env w = (Ok p, w') -> ~ In p (store_active_ports w).
Proof.
  intro H. destruct (db_fault env FindActivePorts) eqn:Hdb.
  - unfold allocatePort, db_findActivePorts, try_catch, bind, or_throw in H.
    rewrite Hdb in H. discriminate.
  - destruct (allocatePort_spec env w Hdb) as [_ [_ [[q [Hq [_ [Hnu _]]]] | [Hr _]]]];
      rewrite H in *; cbn [fst] in *; [injection Hq as ->; exact Hnu | discriminate].
Qed.

Lemma createContainer_ok_port env uid w info w' :
  createContainer env uid w = (Ok info, w') -> ~ In (ci_port info) (store_active_ports w).
Proof.
  unfold createContainer. intro H. apply try_rethrow_ok_inv in H.
  apply bind_ok_inv in H as [p [w1 [Hp Hk]]]. cbv zeta in Hk.
  apply bind_ok_inv in Hk as [ref [w2 [_ Hret]]].
  unfold ret in Hret. injection Hret as <- _. simpl.
  exact (allocatePort_ok_free env w p w1 Hp).
Qed.

(** ** Distinct ports of the active records *)

Lemma apd_nil : active_ports_distinct [].
Proof. intros [|i] j r1 r2 _ H; discriminate. Qed.

Lemma nth_error_single {A} (x y : A) k : nth_error [x] k = Some y -> k = O /\ y = x.
Proof. destruct k as [|[|k]]; simpl; intro H; try discriminate. injection H; auto. Qed.

Lemma apd_app_fresh rs r :
  active_ports_distinct rs ->
  (forall r', In r' rs -> is_active r' = true -> port r' <> port r) ->
  active_ports_distinct (rs ++ [r]).
Proof.
  intros Hd Hf i j r1 r2 Hij Hi Hj A1 A2.
  destruct (Nat.lt_ge_cases i (length rs)) as [Li|Li];
  destruct (Nat.lt_ge_cases j (length rs)) as [Lj|Lj].
  - rewrite nth_error_app1 in Hi, Hj by exact Li || exact Lj.
    exact (Hd i j r1 r2 Hij Hi Hj A1 A2).
  - rewrite nth_error_app1 in Hi by exact Li. rewrite nth_error_app2 in Hj by exact Lj.
    apply nth_error_single in Hj as [_ ->].
    apply Hf; [eapply nth_error_In; eauto|exact A1].
  - rewrite nth_error_app2 in Hi by exact Li. rewrite nth_error_app1 in Hj by exact Lj.
    apply nth_error_single in Hi as [_ ->].
    intro Heq; symmetry in Heq; revert Heq.
    apply Hf; [eapply nth_error_In; eauto|exact A2].
  - rewrite nth_error_app2 in Hi by exact Li. rewrite nth_error_app2 in Hj by exact Lj.
    apply nth_error_single in Hi as [Ei _]. apply nth_error_single in Hj as [Ej _].
    exfalso. apply Hij. lia.
Qed.

Lemma apd_map (h : ApiInstance -> ApiInstance) rs :
  (forall r, In r rs -> port (h r) = port r /\ (is_active (h r) = true -> is_active r = true)) ->
  active_ports_distinct rs -> active_ports_distinct (map h rs).
Proof.
  intros Hh Hd i j r1 r2 Hij Hi Hj A1 A2.
  rewrite nth_error_map in Hi, Hj.
  destruct (nth_error rs i) as [s1|] eqn:E1; [|discriminate].
  destruct (nth_error rs j) as [s2|] eqn:E2; [|discriminate].
  injection Hi as <-. injection Hj as <-.
  destruct (Hh s1 (nth_error_In _ _ E1)) as [P1 B1].
  destruct (Hh s2 (nth_error_In _ _ E2)) as [P2 B2].
  rewrite P1, P2. exact (Hd i j s1 s2 Hij E1 E2 (B1 A1) (B2 A2)).
Qed.

Lemma apd_update_stopped rs iid t :
  active_ports_distinct rs -> active_ports_distinct (update_by_id iid (with_stopped t) rs).
Proof.
  apply apd_map. intros r _. destruct (String.eqb (id r) iid); split; auto.
  unfold is_active; simpl; discriminate.
Qed.

Lemma try_catch_snd_handler {A} (m : M A) (h : Exn -> M A) w :
  (forall e w', snd (h e w') = w') -> snd (try_catch m h w) = snd (m w).
Proof.
  intro Hh. unfold try_catch. destruct (m w) as [[a|e] w1]; [reflexivity|apply Hh].
Qed.

Lemma keeps (A : Type) (m : M A) w r w' :
  keeps_records m -> m w = (r, w') -> records w' = records w.
Proof. intros K E. specialize (K w). rewrite E in K. exact K. Qed.

Lemma create_preserves env user w :
  active_ports_distinct (records w) ->
  active_ports_distinct (records (snd (create_instance env user w))).
Proof.
  intro Hd. unfold create_instance, authenticated.
  destruct user as [uid|]; [|exact Hd].
  rewrite try_catch_snd_handler by reflexivity.
  rewrite bind_snd. destruct (initialize env w) as [[u|e] w1] eqn:E1; cbv beta iota;
    pose proof (keeps _ _ _ _ _ (kr_initialize env) E1) as R1; [|rewrite R1; exact Hd].
  rewrite bind_snd. destruct (createContainer env uid w1) as [[info|e] w2] eqn:E2; cbv beta iota;
    pose proof (keeps _ _ _ _ _ (kr_createContainer env uid) E2) as R2; [|rewrite R2, R1; exact Hd].
  pose proof (createContainer_ok_port env uid w1 info w2 E2) as Hfree.
  set (newr := mkInstance (fresh_instance_id env) uid (ci_containerId info)
                 (ci_containerName info) (ci_url info) (ci_port info)
                 "CREATING" (now env) None).
  rewrite bind_snd.
  destruct (db_createInstance_effect env newr w2) as [[Hr3 [R3 Hfresh]] | [e [Hr3 R3]]];
    destruct (db_createInstance env newr w2) as [res3 w3] eqn:E3;
    cbn [fst snd] in Hr3, R3; subst res3; [|rewrite R3, R2, R1; exact Hd].
  assert (Hd3 : active_ports_distinct (records w3)).
  { rewrite R3. apply apd_app_fresh; [rewrite R2, R1; exact Hd|].
    intros r' Hin Ha Hp. apply Hfree. unfold store_active_ports.
    rewrite <- R2. replace (ci_port info) with (port r') by exact Hp.
    apply in_map, filter_In; auto. }
  rewrite bind_snd. destruct (startContainer env (ci_containerId info) w3) as [[u'|e] w4] eqn:E4; cbv beta iota;
    pose proof (keeps _ _ _ _ _ (kr_startContainer env _) E4) as R4; [|rewrite R4; exact Hd3].
  rewrite bind_snd.
  destruct (db_updateInstance_effect env (id newr) (with_status "RUNNING") w4) as [R5|R5];
    destruct (db_updateInstance env (id newr) (with_status "RUNNING") w4) as [[u5|e] w5] eqn:E5;
    cbv beta iota; unfold ret; cbn [snd] in R5 |- *; rewrite R5, R4;
    [exact Hd3|exact Hd3| | ].
  all: rewrite R3; apply apd_map; [|rewrite <- R3; exact Hd3].
  all: intros r Hin; unfold update_by_id; destruct (String.eqb (id r) (id newr)) eqn:Eid;
       split; auto; intros _.
  all: apply in_app_or in Hin as [Hin|[<-|[]]];
       [apply String.eqb_eq in Eid; exfalso; exact (Hfresh r Hin Eid) | reflexivity].
Qed.

Lemma delete_preserves env user iid w :
  active_ports_distinct (records w) ->
  active_ports_distinct (records (snd (delete_instance env user iid w))).
Proof.
  intro Hd. unfold delete_instance, authenticated.
  destruct user as [uid|]; [|exact Hd].
  destruct (String.eqb iid ""); [exact Hd|].
  rewrite try_catch_snd_handler by (intros e w'; destruct (isApiError e); reflexivity).
  rewrite bind_snd. destruct (db_findFirstInstance env iid uid w) as [[found|e] w1] eqn:E1; cbv beta iota;
    pose proof (keeps _ _ _ _ _ (kr_db_findFirstInstance env iid uid) E1) as R1; [|rewrite R1; exact Hd].
  destruct found as [inst|]; [|simpl; rewrite R1; exact Hd].
  rewrite bind_snd. destruct (removeContainer env (containerId inst) w1) as [[u|e] w2] eqn:E2; cbv beta iota;
    pose proof (keeps _ _ _ _ _ (kr_removeContainer env _) E2) as R2; [|rewrite R2, R1; exact Hd].
  rewrite bind_snd.
  destruct (db_updateInstance_effect env (id inst) (with_stopped (now env)) w2) as [R3|R3];
    destruct (db_updateInstance env (id inst) (with_stopped (now env)) w2) as [[u3|e] w3];
    cbv beta iota; unfold ret; cbn [snd] in R3 |- *; rewrite R3, R2, R1;
    [exact Hd|exact Hd|apply apd_update_stopped; exact Hd|apply apd_update_stopped; exact Hd].
Qed.

Lemma step_preserves w w' :
  active_ports_distinct (records w) -> step w w' -> active_ports_distinct (records w').
Proof.
  intros Hd Hs. destruct Hs as [env user w0|env user iid w0|env user w0|env w0].
  - apply create_preserves; exact Hd.
  - apply delete_preserves; exact Hd.
  - rewrite kr_list_instances; exact Hd.
  - rewrite kr_cleanupOrphanedContainers; exact Hd.
Qed.

(** ** Removal, inspection and the reaper *)

Lemma find_container_some_iff x cs :
  find_container x cs <> None <-> exists c, In c cs /\ cId c = x.
Proof.
  unfold find_container; split.
  - intro H. destruct (find _ cs) as [c|] eqn:F; [|congruence].
    apply find_some in F as [Hin Heq]. apply String.eqb_eq in Heq. eauto.
  - intros [c [Hin Heq]] F. apply (find_none _ _ F) in Hin.
    rewrite Heq, String.eqb_refl in Hin. discriminate.
Qed.

Lemma filter_neq_id_none x cs :
  find_container x cs = None -> filter (fun c => negb (String.eqb (cId c) x)) cs = cs.
Proof.
  unfold find_container. intro F.
  induction cs as [|c cs IH]; [reflexivity|].
  simpl in F |- *. destruct (String.eqb (cId c) x); [discriminate|].
  simpl. rewrite IH by exact F. reflexivity.
Qed.

Lemma filter_neq_id_map x f cs :
  (forall c, cId (f c) = cId c) ->
  filter (fun c => negb (String.eqb (cId c) x))
         (map (fun c => if String.eqb (cId c) x then f c else c) cs)
  = filter (fun c => negb (String.eqb (cId c) x)) cs.
Proof.
  intro Hf. induction cs as [|c cs IH]; [reflexivity|].
  simpl. destruct (String.eqb (cId c) x) eqn:E; simpl.
  - rewrite Hf, E. simpl. exact IH.
  - rewrite E. simpl. rewrite IH. reflexivity.
Qed.

Lemma find_container_filter_neq x cs :
  find_container x (filter (fun c => negb (String.eqb (cId c) x)) cs) = None.
Proof.
  unfold find_container. induction cs as [|c cs IH]; [reflexivity|].
  simpl. destruct (String.eqb (cId c) x) eqn:E; simpl; [exact IH|].
  rewrite E. exact IH.
Qed.

Lemma container_remove_force_result env ref w :
  container_remove_force env ref w =
  match find_container ref (containers w) with
  | None => (Throw (no_such_container ref), add_log (CallRemove ref) w)
  | Some _ =>
      match remove_fault env ref with
      | Some e => (Throw e, add_log (CallRemove ref) w)
      | None => (Ok tt, set_containers
                          (filter (fun c => negb (String.eqb (cId c) ref)) (containers w))
                          (add_log (CallRemove ref) w))
      end
  end.
Proof.
  unfold container_remove_force, lookup_container, or_throw, bind, modify, get, ret, throw.
  cbn [containers add_log].
  destruct (find_container ref (containers w)); [|reflexivity].
  destruct (remove_fault env ref); reflexivity.
Qed.

Lemma container_inspect_result env ref w :
  container_inspect env ref w = (inspect_res env (containers w) ref, add_log (CallInspect ref) w).
Proof.
  unfold container_inspect, inspect_res, lookup_container, or_throw, bind, modify, get, ret, throw.
  cbn [containers add_log].
  destruct (find_container ref (containers w)); [|reflexivity].
  destruct (inspect_fault env ref); reflexivity.
Qed.

Lemma removeContainer_absent env ref w :
  find_container ref (containers w) = None ->
  removeContainer env ref w =
  (Throw (ErrorObj ("Container removal failed: " ++ errMessage (no_such_container ref))),
   add_log (CallRemove ref) (add_log (CallInspect ref) w)).
Proof.
  intro F. unfold removeContainer, try_catch at 1 2, bind at 1 2.
  rewrite container_inspect_result. unfold inspect_res. rewrite F.
  cbv beta iota. unfold ret at 1.
  rewrite container_remove_force_result. cbn [containers add_log]. rewrite F.
  reflexivity.
Qed.

Lemma removeContainer_ok_gone env ref w w1 :
  removeContainer env ref w = (Ok tt, w1) -> find_container ref (containers w1) = None.
Proof.
  unfold removeContainer. intro H. apply try_rethrow_ok_inv in H.
  apply bind_ok_inv in H as [u [w2 [_ H]]].
  rewrite container_remove_force_result in H.
  destruct (find_container ref (containers w2)); [|discriminate].
  destruct (remove_fault env ref); [discriminate|].
  injection H as <-. apply find_container_filter_neq.
Qed.

(** The part of [removeContainer] before the forced removal never fails,
    and it changes no container but the one it stops. *)
Lemma remove_prelude env x w :
  exists w2,
    try_catch (info <- container_inspect env x ;;
               if cRunning info then stopContainer env x else ret tt)
              (fun _ => ret tt) w = (Ok tt, w2) /\
    (containers w2 = containers w \/
     exists f, (forall c, cId (f c) = cId c) /\
               containers w2 = map (fun c => if String.eqb (cId c) x then f c else c)
                                   (containers w)).
Proof.
  unfold try_catch at 1, bind at 1. rewrite container_inspect_result.
  unfold inspect_res.
  destruct (find_container x (containers w)) as [c|] eqn:F;
    [|eexists; split; [reflexivity|left; reflexivity]].
  destruct (inspect_fault env x) as [e|];
    [eexists; split; [reflexivity|left; reflexivity]|].
  destruct (cRunning c) eqn:Hr; [|eexists; split; [reflexivity|left; reflexivity]].
  unfold stopContainer, container_stop, lookup_container, update_container, try_catch, bind,
    modify, or_throw, get, ret, throw, rethrow_with.
  cbv beta iota zeta. cbn [containers add_log]. rewrite F.
  destruct (stop_fault env x); [eexists; split; [reflexivity|left; reflexivity]|].
  rewrite Hr. eexists; split; [reflexivity|right].
  eexists; split; [|reflexivity]. reflexivity.
Qed.

(** A removal whose failure is caught drops every container with that id,
    whenever the runtime's remove itself does not fail. *)
Lemma remove_caught_filters env x w :
  remove_fault env x = None ->
  containers (snd (try_catch (removeContainer env x) (fun _ => ret tt) w)) =
  filter (fun c => negb (String.eqb (cId c) x)) (containers w).
Proof.
  intro Hrf.
  destruct (find_container x (containers w)) eqn:F.
  - assert (Hin : find_container x (containers w) <> None) by congruence.
    apply find_container_some_iff in Hin as [c0 [Hc0 Hid]].
    destruct (remove_prelude env x w) as [w2 [Hp Hc2]].
    unfold removeContainer, try_catch at 1 2, bind at 1. rewrite Hp.
    rewrite container_remove_force_result.
    assert (Hf2 : find_container x (containers w2) <> None).
    { apply find_container_some_iff.
      destruct Hc2 as [-> | [f [Hf ->]]]; [eauto|].
      exists (if String.eqb (cId c0) x then f c0 else c0). split.
      - exact (in_map (fun c => if String.eqb (cId c) x then f c else c) _ _ Hc0).
      - destruct (String.eqb (cId c0) x); [rewrite Hf|]; exact Hid. }
    destruct (find_container x (containers w2)); [|congruence].
    rewrite Hrf. cbn [snd containers set_containers add_log].
    destruct Hc2 as [-> | [f [Hf ->]]]; [reflexivity|].
    apply filter_neq_id_map; exact Hf.
  - unfold try_catch at 1. rewrite removeContainer_absent by exact F.
    cbn. symmetry. apply filter_neq_id_none; exact F.
Qed.

Lemma filter_filter_and {A} (f g : A -> bool) l :
  filter f (filter g l) = filter (fun x => g x && f x) l.
Proof.
  induction l as [|x l IH]; [reflexivity|]. simpl.
  destruct (g x); simpl; [destruct (f x); simpl|]; rewrite IH; reflexivity.
Qed.

Lemma forEach_reap env ids L :
  (forall ref, remove_fault env ref = None) ->
  forall w,
    fst (forEach (reap_one env ids) L w) = Ok tt /\
    containers (snd (forEach (reap_one env ids) L w)) =
    filter (fun c => negb (existsb (fun ci => String.eqb (ciId ci) (cId c)
                                              && orphan_info ids ci) L))
           (containers w).
Proof.
  intro Hrf. induction L as [|ci L IH]; intro w.
  - simpl. split; [reflexivity|]. symmetry. apply forallb_filter_id, forallb_forall.
    reflexivity.
  - cbn [forEach].
    assert (Hstep : exists w1, reap_one env ids ci w = (Ok tt, w1) /\
                    containers w1 = filter (fun c => negb (String.eqb (ciId ci) (cId c)
                                                           && orphan_info ids ci))
                                           (containers w)).
    { unfold reap_one, orphan_info.
      destruct (negb (existsb (String.eqb (ciId ci)) ids)) eqn:Ho.
      - pose proof (remove_caught_filters env (ciId ci) w (Hrf _)) as Hc.
        destruct (try_catch (removeContainer env (ciId ci)) (fun _ => ret tt) w)
          as [r w1] eqn:E.
        exists w1. split.
        + f_equal. revert E. unfold try_catch.
          destruct (removeContainer env (ciId ci) w) as [[[]|e] w2];
            intro E; injection E as <- _; reflexivity.
        + cbn [snd] in Hc. rewrite Hc. apply filter_ext. intro c.
          rewrite String.eqb_sym, andb_true_r. reflexivity.
      - exists w. split; [reflexivity|].
        symmetry. apply forallb_filter_id, forallb_forall. intros c _.
        rewrite andb_false_r. reflexivity. }
    destruct Hstep as [w1 [E Hc]].
    assert (Hb : bind (reap_one env ids ci) (fun _ => forEach (reap_one env ids) L) w
                 = forEach (reap_one env ids) L w1) by (unfold bind; rewrite E; reflexivity).
    rewrite Hb.
    destruct (IH w1) as [IHr IHc]. split; [exact IHr|].
    rewrite IHc, Hc, filter_filter_and. apply filter_ext. intro c.
    simpl. rewrite negb_orb. reflexivity.
Qed.

Lemma NoDup_map_inj {A B} (f : A -> B) l a b :
  NoDup (map f l) -> In a l -> In b l -> f a = f b -> a = b.
Proof.
  induction l as [|x l IH]; simpl; [tauto|].
  intros Hnd Ha Hb Hf. inversion Hnd as [|? ? Hnin Hnd']; subst.
  destruct Ha as [<-|Ha]; destruct Hb as [<-|Hb]; auto.
  - exfalso. apply Hnin. rewrite Hf. apply in_map; exact Hb.
  - exfalso. apply Hnin. rewrite <- Hf. apply in_map; exact Ha.
Qed.

Lemma cleanup_result env w :
  label_list_fault env = None -> db_fault env FindAllContainerIds = None ->
  (forall ref, remove_fault env ref = None) ->
  containers (snd (cleanupOrphanedContainers env w)) =
  filter (fun c => negb (existsb (fun ci => String.eqb (ciId ci) (cId c)
                                            && orphan_info (map containerId (records w)) ci)
                                 (map to_info (filter has_service_label (containers w)))))
         (containers w).
Proof.
  intros Hl Hdb Hrf.
  unfold cleanupOrphanedContainers, docker_listContainers_label, db_findAllContainerIds,
    try_catch, bind, modify, or_throw, get, ret.
  rewrite Hl, Hdb. cbn [containers records add_log].
  destruct (forEach_reap env (map containerId (records w))
              (map to_info (filter has_service_label (containers w))) Hrf
              (add_log CallListLabel w)) as [Hr Hc].
  destruct (forEach _ _ _) as [r w'] eqn:E. cbn [fst snd] in Hr, Hc |- *.
  subst r. exact Hc.
Qed.

(** ** Status inspection and listing *)

Lemma getContainerStatus_result env ref w :
  getContainerStatus env ref w =
  (Ok (status_of ref (inspect_res env (containers w) ref)), add_log (CallInspect ref) w).
Proof.
  unfold getContainerStatus, try_catch, bind at 1.
  rewrite container_inspect_result.
  destruct (inspect_res env (containers w) ref); reflexivity.
Qed.

Lemma list_entry_result env inst w :
  list_entry env inst w =
  (Ok (entry_of inst (reported_status
         (status_of (containerId inst) (inspect_res env (containers w) (containerId inst))))),
   add_log (CallInspect (containerId inst)) w).
Proof.
  unfold list_entry, try_catch, bind at 1. rewrite getContainerStatus_result. reflexivity.
Qed.

Lemma mapM_list_entry env xs : forall w,
  exists entries w',
    mapM (list_entry env) xs w = (Ok entries, w') /\ containers w' = containers w /\
    Forall2 (fun r e => e = entry_of r (reported_status
              (status_of (containerId r) (inspect_res env (containers w) (containerId r)))))
            xs entries.
Proof.
  induction xs as [|x xs IH]; intro w.
  - exists [], w. repeat split. constructor.
  - destruct (IH (add_log (CallInspect (containerId x)) w)) as [es [w' [E [Hc Hf]]]].
    cbn [containers add_log] in Hc, Hf.
    eexists _, w'. split; [|split; [exact Hc|constructor; [reflexivity|exact Hf]]].
    cbn [mapM]. unfold bind at 1. rewrite list_entry_result.
    unfold bind at 1. rewrite E. reflexivity.
Qed.

Lemma list_instances_unfold env uid w instances :
  db_findInstances env uid w = (Ok instances, w) ->
  list_instances env (Some uid) w =
  match mapM (list_entry env) instances w with
  | (Ok es, w') => (Ok (Listed es), w')
  | (Throw e, w') => (Throw (ApiErrorObj ("Failed to fetch instances: " ++ errMessage e) 500), w')
  end.
Proof.
  intro H. unfold list_instances, authenticated, try_catch at 1, bind at 1.
  rewrite H.
  unfold bind. destruct (mapM (list_entry env) instances w) as [[es|e] w']; reflexivity.
Qed.

(** ** Stepping through a request *)

Lemma bind_ok_step {A B} (m : M A) (k : A -> M B) w a w1 :
  m w = (Ok a, w1) -> bind m k w = k a w1.
Proof. intro H. unfold bind. rewrite H. reflexivity. Qed.

Lemma bind_throw_step {A B} (m : M A) (k : A -> M B) w e w1 :
  m w = (Throw e, w1) -> bind m k w = (Throw e, w1).
Proof. intro H. unfold bind. rewrite H. reflexivity. Qed.

Lemma container_start_throw env ref w e :
  fst (container_start env ref w) = Throw e ->
  container_start env ref w = (Throw e, add_log (CallStart ref) w).
Proof.
  unfold container_start, update_container, lookup_container, or_throw,
    bind, modify, get, ret, throw.
  cbn [containers add_log].
  destruct (find_container ref (containers w)); cbn [fst];
    [destruct (start_fault env ref)|]; intro H; try discriminate;
    injection H as ->; reflexivity.
Qed.

Lemma startContainer_throw env ref w e :
  fst (container_start env ref w) = Throw e ->
  startContainer env ref w =
  (Throw (ErrorObj ("Container start failed: " ++ errMessage e)), add_log (CallStart ref) w).
Proof.
  intro H. unfold startContainer, try_catch. rewrite (container_start_throw env ref w e H).
  reflexivity.
Qed.

Lemma createContainer_create_fault env uid w p w1 e :
  allocatePort env w = (Ok p, w1) -> create_fault env p = Some e ->
  createContainer env uid w =
  (Throw (ErrorObj ("Container creation failed: " ++ errMessage e)), add_log (CallCreate p) w1).
Proof.
  intros Hp Hf. unfold createContainer, try_catch.
  rewrite (bind_ok_step _ _ _ _ _ Hp). cbv beta zeta.
  unfold docker_createContainer at 1, bind at 1 2, modify at 1, or_throw at 1.
  rewrite Hf. reflexivity.
Qed.

Lemma in_filter_labelled_orphan cs ids c :
  NoDup (map cId cs) -> In c cs ->
  existsb (fun ci => String.eqb (ciId ci) (cId c) && orphan_info ids ci)
          (map to_info (filter has_service_label cs)) = true <->
  has_service_label c = true /\ ~ In (cId c) ids.
Proof.
  intros Hnd Hc. rewrite existsb_exists. split.
  - intros [ci [Hci Hp]]. apply in_map_iff in Hci as [c' [<- Hc']].
    apply filter_In in Hc' as [Hc' Hl].
    apply andb_prop in Hp as [Heq Ho]. apply String.eqb_eq in Heq.
    cbn [to_info ciId] in Heq, Ho.
    assert (c' = c) as -> by exact (NoDup_map_inj cId cs c' c Hnd Hc' Hc Heq).
    split; [exact Hl|]. unfold orphan_info in Ho. cbn [to_info ciId] in Ho.
    intro Hin. assert (existsb (String.eqb (cId c)) ids = true)
      by (apply existsb_exists; exists (cId c); split; [exact Hin|apply String.eqb_refl]).
    rewrite H in Ho. discriminate.
  - intros [Hl Hnin]. exists (to_info c). split.
    + apply in_map, filter_In; auto.
    + cbn [to_info ciId]. rewrite String.eqb_refl. cbn [andb].
      unfold orphan_info. cbn [to_info ciId].
      destruct (existsb (String.eqb (cId c)) ids) eqn:E; [|reflexivity].
      apply existsb_exists in E as [x [Hx Heq]]. apply String.eqb_eq in Heq.
      subst x. contradiction.
Qed.

(** ** Claims *)

(** C1: Every step of the system (a create, a delete, a listing or a reaper
    run, whatever the outcome of the external calls) keeps the ports of the
    records with status [CREATING] or [RUNNING] pairwise distinct, hence
    every state reached from an empty record store satisfies it. *)
Theorem port_uniqueness :
  (forall w w', active_ports_distinct (records w) -> step w w' ->
                active_ports_distinct (records w')) /\
  (forall w, reachable w -> active_ports_distinct (records w)).
Proof.
  split; [exact step_preserves|].
  intros w Hr. induction Hr as [cs l|w w' _ IH Hs]; [exact apd_nil|].
  exact (step_preserves w w' IH Hs).
Qed.

Lemma port_uniqueness_witness :
  reachable world_two_created /\
  store_active_ports world_two_created = [3001; 3002] /\
  active_ports_distinct (records world_two_created).
Proof.
  assert (H1 : reachable world_one_created).
  { apply (reach_step world_empty); [exact (reach_init [] [])|apply step_create]. }
  assert (H2 : reachable world_two_created).
  { apply (reach_step world_one_created); [exact H1|apply step_create]. }
  split; [exact H2|]. split; [vm_compute; reflexivity|].
  exact (proj1 port_uniqueness world_one_created world_two_created
           (proj2 port_uniqueness world_one_created H1)
           (step_create env_second (Some "v") world_one_created)).
Defined.

(** C2: When the query of the active ports succeeds, [allocatePort] changes
    no record and no container, and either returns the lowest port of
    [3001, 4000] that is neither held by a record with status [CREATING] or
    [RUNNING] nor published by a container of the runtime's listing, or
    fails with [Port allocation failed: No available ports in range
    3001-4000] when every port of the range is held or published. *)
Theorem allocatePort_lowest_free env w :
  db_fault env FindActivePorts = None ->
  records (snd (allocatePort env w)) = records w /\
  containers (snd (allocatePort env w)) = containers w /\
  ((exists q, fst (allocatePort env w) = Ok q /\
              MIN_PORT <= q <= MAX_PORT /\ ~ In q (store_active_ports w) /\
              ~ bound_live env (containers w) q /\
              forall q', MIN_PORT <= q' < q ->
                         In q' (store_active_ports w) \/ bound_live env (containers w) q')
   \/ (fst (allocatePort env w) = Throw NoCapacity /\
       forall q, MIN_PORT <= q <= MAX_PORT ->
                 In q (store_active_ports w) \/ bound_live env (containers w) q)).
Proof. intro Hdb. exact (allocatePort_spec env w Hdb). Qed.

Lemma allocatePort_lowest_free_witness :
  fst (allocatePort env_ok world_busy_ports) = Ok 3003 /\
  records (snd (allocatePort env_ok world_busy_ports)) = records world_busy_ports.
Proof.
  split; [vm_compute; reflexivity|].
  exact (proj1 (allocatePort_lowest_free env_ok world_busy_ports eq_refl)).
Defined.

(** C3 (as the code has it): when the container is created and its record
    persisted with status [CREATING] but the start fails, the request fails
    with [Failed to create instance: Container start failed: <message>],
    the record stays in the store with status [CREATING], and no runtime
    call follows the failed start: no removal is attempted. *)
Theorem create_start_failure_keeps_creating env uid w w1 w2 w3 info inst e :
  initialize env w = (Ok tt, w1) ->
  createContainer env uid w1 = (Ok info, w2) ->
  db_createInstance env
    (mkInstance (fresh_instance_id env) uid (ci_containerId info) (ci_containerName info)
                (ci_url info) (ci_port info) "CREATING" (now env) None) w2 = (Ok inst, w3) ->
  fst (container_start env (ci_containerId info) w3) = Throw e ->
  create_instance env (Some uid) w =
    (Throw (ApiErrorObj ("Failed to create instance: Container start failed: "
                         ++ errMessage e) 500),
     add_log (CallStart (ci_containerId info)) w3) /\
  In inst (records w3) /\ status inst = "CREATING".
Proof.
  intros H1 H2 H3 H4. split.
  - unfold create_instance, authenticated, try_catch at 1.
    rewrite (bind_ok_step _ _ _ _ _ H1). cbv beta.
    rewrite (bind_ok_step _ _ _ _ _ H2). cbv beta.
    rewrite (bind_ok_step _ _ _ _ _ H3). cbv beta.
    rewrite (bind_throw_step _ _ _ _ _ (startContainer_throw _ _ _ _ H4)).
    reflexivity.
  - destruct (db_createInstance_effect env
                (mkInstance (fresh_instance_id env) uid (ci_containerId info)
                   (ci_containerName info) (ci_url info) (ci_port info) "CREATING"
                   (now env) None) w2) as [[Hf [Hr _]] | [e' [Hf _]]];
      rewrite H3 in Hf, Hr || rewrite H3 in Hf; cbn [fst snd] in *; [|discriminate].
    injection Hf as ->. rewrite Hr. split; [|reflexivity].
    apply in_or_app. right. left. reflexivity.
Qed.

Lemma create_start_failure_keeps_creating_witness :
  fst (create_instance env_start_fails (Some "u") world_empty) =
  Throw (ApiErrorObj ("Failed to create instance: Container start failed: "
                      ++ errMessage bind_error) 500).
Proof.
  destruct (create_start_failure_keeps_creating env_start_fails "u" world_empty
              (snd (initialize env_start_fails world_empty))
              (snd (createContainer env_start_fails "u"
                      (snd (initialize env_start_fails world_empty))))
              (snd (db_createInstance env_start_fails
                      (mkInstance "i1" "u" "c1" "api-instance-u-1000" "http://localhost:3001"
                                  3001 "CREATING" 1000 None)
                      (snd (createContainer env_start_fails "u"
                              (snd (initialize env_start_fails world_empty))))))
              (mkCreated "c1" "api-instance-u-1000" 3001 "http://localhost:3001" "created")
              (mkInstance "i1" "u" "c1" "api-instance-u-1000" "http://localhost:3001"
                          3001 "CREATING" 1000 None)
              bind_error
              ltac:(vm_compute; reflexivity) ltac:(vm_compute; reflexivity)
              ltac:(vm_compute; reflexivity) ltac:(vm_compute; reflexivity))
    as [H _].
  rewrite H. reflexivity.
Defined.

(** C3 fails: a start failure leaves the record with status [CREATING] and
    no removal of the container is attempted. *)
Lemma create_start_failure_counterexample :
  map status (records (snd (create_instance env_start_fails (Some "u") world_empty)))
    = ["CREATING"] /\
  ~ In (CallRemove "c1") (rt_log (snd (create_instance env_start_fails (Some "u") world_empty))).
Proof.
  vm_compute. split; [reflexivity|].
  intros [H|[H|[H|[H|[]]]]]; discriminate.
Qed.

(** C4 (a defect of the code): deleting an instance owned by the caller
    and not stopped, whose container no longer exists, fails with [Failed
    to delete instance: Container removal failed: (HTTP code 404) no such
    container - ...] and leaves the record store untouched: the record is
    not moved to [STOPPED]. *)
Theorem delete_missing_container_fails env uid iid w inst :
  String.eqb iid "" = false ->
  db_findFirstInstance env iid uid w = (Ok (Some inst), w) ->
  find_container (containerId inst) (containers w) = None ->
  delete_instance env (Some uid) iid w =
    (Throw (ApiErrorObj ("Failed to delete instance: Container removal failed: "
                         ++ errMessage (no_such_container (containerId inst))) 500),
     add_log (CallRemove (containerId inst)) (add_log (CallInspect (containerId inst)) w)).
Proof.
  intros He Hf Hc.
  unfold delete_instance, authenticated. rewrite He. unfold try_catch at 1.
  rewrite (bind_ok_step _ _ _ _ _ Hf). cbv beta iota.
  rewrite (bind_throw_step _ _ _ _ _ (removeContainer_absent env _ w Hc)).
  reflexivity.
Qed.

Lemma delete_missing_container_fails_witness :
  records (snd (delete_instance env_ok (Some "u") "i1" world_missing_container))
    = [instance_abc "RUNNING" None].
Proof.
  rewrite (delete_missing_container_fails env_ok "u" "i1" world_missing_container
             (instance_abc "RUNNING" None) ltac:(reflexivity)
             ltac:(vm_compute; reflexivity) ltac:(vm_compute; reflexivity)).
  reflexivity.
Defined.

(** C5 (a defect of the code): [removeContainer] fails on a container that
    does not exist, with [Container removal failed: (HTTP code 404) no such
    container - ...]; hence after a successful removal a second removal of
    the same reference always fails. *)
Theorem removeContainer_not_idempotent env ref :
  (forall w, find_container ref (containers w) = None ->
     fst (removeContainer env ref w) =
     Throw (ErrorObj ("Container removal failed: " ++ errMessage (no_such_container ref)))) /\
  (forall w w1, removeContainer env ref w = (Ok tt, w1) ->
     fst (removeContainer env ref w1) =
     Throw (ErrorObj ("Container removal failed: " ++ errMessage (no_such_container ref)))).
Proof.
  split.
  - intros w Hc. rewrite (removeContainer_absent env ref w Hc). reflexivity.
  - intros w w1 H.
    rewrite (removeContainer_absent env ref w1 (removeContainer_ok_gone env ref w w1 H)).
    reflexivity.
Qed.

Lemma removeContainer_not_idempotent_witness :
  fst (removeContainer env_ok "abc" world_one_container) = Ok tt /\
  fst (removeContainer env_ok "abc" (snd (removeContainer env_ok "abc" world_one_container))) =
  Throw (ErrorObj ("Container removal failed: " ++ errMessage (no_such_container "abc"))).
Proof.
  split; [vm_compute; reflexivity|].
  exact (proj2 (removeContainer_not_idempotent env_ok "abc") world_one_container
               (snd (removeContainer env_ok "abc" world_one_container))
               ltac:(vm_compute; reflexivity)).
Defined.

(** C6 (as the code has it): when the label listing, the query of the
    container ids and every removal succeed, and container ids are
    distinct, a reaper run changes no record and keeps exactly the
    containers that lack the service label or whose id is the [containerId]
    of some record, whatever that record's status. *)
Theorem reaper_removes_unrecorded env w :
  label_list_fault env = None -> db_fault env FindAllContainerIds = None ->
  (forall ref, remove_fault env ref = None) ->
  NoDup (map cId (containers w)) ->
  records (snd (cleanupOrphanedContainers env w)) = records w /\
  forall c, In c (containers (snd (cleanupOrphanedContainers env w))) <->
            In c (containers w) /\
            (has_service_label c = false \/ In (cId c) (map containerId (records w))).
Proof.
  intros Hl Hdb Hrf Hnd. split; [apply kr_cleanupOrphanedContainers|].
  intro c. rewrite (cleanup_result env w Hl Hdb Hrf), filter_In.
  split; intros [Hc Hp]; split; try exact Hc.
  - apply negb_true_iff in Hp.
    destruct (has_service_label c) eqn:Hl'; [right|left; reflexivity].
    destruct (in_dec String.string_dec (cId c) (map containerId (records w)))
      as [Hin|Hnin]; [exact Hin|].
    assert (Ht : has_service_label c = true /\
                 ~ In (cId c) (map containerId (records w))) by auto.
    apply (in_filter_labelled_orphan _ _ _ Hnd Hc) in Ht. congruence.
  - apply negb_true_iff.
    destruct (existsb _ _) eqn:E; [|reflexivity].
    apply (in_filter_labelled_orphan _ _ _ Hnd Hc) in E as [Hl' Hnin].
    destruct Hp as [Hp|Hp]; [congruence|contradiction].
Qed.

Lemma reaper_removes_unrecorded_witness :
  records (snd (cleanupOrphanedContainers env_ok world_stopped_record))
    = records world_stopped_record.
Proof.
  exact (proj1 (reaper_removes_unrecorded env_ok world_stopped_record
                  eq_refl eq_refl (fun _ => eq_refl) ltac:(vm_compute; repeat constructor; simpl; tauto))).
Defined.

(** C6 fails: a labelled container whose only record is [STOPPED] survives
    the reaper although no active record backs it. *)
Lemma reaper_keeps_stopped_counterexample :
  In (container_abc false) (containers (snd (cleanupOrphanedContainers env_ok world_stopped_record))) /\
  has_service_label (container_abc false) = true /\
  (forall r, In r (records (snd (cleanupOrphanedContainers env_ok world_stopped_record))) ->
             containerId r = cId (container_abc false) -> is_active r = false).
Proof.
  split; [vm_compute; left; reflexivity|].
  split; [reflexivity|].
  intros r Hr _. vm_compute in Hr. destruct Hr as [<-|[]]. reflexivity.
Qed.

(** C7 (as the code has it): when the runtime rejects the creation of the
    container on the allocated port, the request fails at once with
    [Failed to create instance: Container creation failed: <message>]
    after a single create call; nothing is retried and no record is
    written. *)
Theorem create_failure_not_retried env uid w w1 w2 p e :
  initialize env w = (Ok tt, w1) ->
  allocatePort env w1 = (Ok p, w2) ->
  create_fault env p = Some e ->
  create_instance env (Some uid) w =
    (Throw (ApiErrorObj ("Failed to create instance: Container creation failed: "
                         ++ errMessage e) 500),
     add_log (CallCreate p) w2).
Proof.
  intros H1 H2 H3.
  unfold create_instance, authenticated, try_catch at 1.
  rewrite (bind_ok_step _ _ _ _ _ H1). cbv beta.
  rewrite (bind_throw_step _ _ _ _ _ (createContainer_create_fault env uid w1 p w2 e H2 H3)).
  reflexivity.
Qed.

Lemma create_failure_not_retried_witness :
  fst (create_instance env_create_fails (Some "u") world_empty) =
  Throw (ApiErrorObj ("Failed to create instance: Container creation failed: "
                      ++ errMessage bind_error) 500).
Proof.
  rewrite (create_failure_not_retried env_create_fails "u" world_empty
             (snd (initialize env_create_fails world_empty))
             (snd (allocatePort env_create_fails (snd (initialize env_create_fails world_empty))))
             3001 bind_error
             ltac:(vm_compute; reflexivity) ltac:(vm_compute; reflexivity)
             ltac:(vm_compute; reflexivity)).
  reflexivity.
Defined.

(** C7 fails: the runtime rejects port 3001 only, yet the request fails
    after one create call instead of retrying on another port. *)
Lemma create_failure_counterexample :
  fst (create_instance env_create_fails (Some "u") world_empty) =
    Throw (ApiErrorObj ("Failed to create instance: Container creation failed: "
                        ++ errMessage bind_error) 500) /\
  rt_log (snd (create_instance env_create_fails (Some "u") world_empty))
    = [CallPing; CallList; CallCreate 3001] /\
  create_fault env_create_fails 3002 = None.
Proof. vm_compute. split; [reflexivity|split; reflexivity]. Qed.

(** C8: when the store query succeeds, [GET /api/instances] succeeds and
    returns one entry per instance, in order; the status of each entry is
    re-derived by inspecting its container: [RUNNING] for a running
    container, its state in upper case otherwise, and [ERROR] when the
    inspection fails. *)
Theorem list_partial_degradation env uid w instances :
  db_findInstances env uid w = (Ok instances, w) ->
  exists entries,
    fst (list_instances env (Some uid) w) = Ok (Listed entries) /\
    Forall2 (fun r en =>
               en = entry_of r
                      (match fst (container_inspect env (containerId r) w) with
                       | Ok c => if cRunning c then "RUNNING" else toUpperCase (cState c)
                       | Throw _ => "ERROR"
                       end))
            instances entries.
Proof.
  intro H. rewrite (list_instances_unfold env uid w instances H).
  destruct (mapM_list_entry env instances w) as [es [w' [E [_ Hf]]]].
  rewrite E. exists es. split; [reflexivity|].
  refine (Forall2_impl _ _ Hf). intros r en ->.
  rewrite container_inspect_result. cbn [fst].
  destruct (inspect_res env (containers w) (containerId r)); reflexivity.
Qed.

Lemma list_partial_degradation_witness :
  exists entries,
    fst (list_instances env_ok (Some "u") world_missing_container) = Ok (Listed entries) /\
    Forall2 (fun r en => en = entry_of r "ERROR") [instance_abc "RUNNING" None] entries.
Proof.
  destruct (list_partial_degradation env_ok "u" world_missing_container
              [instance_abc "RUNNING" None] ltac:(vm_compute; reflexivity))
    as [es [He Hf]].
  exists es. split; [exact He|].
  refine (Forall2_impl _ _ Hf). intros r en ->. reflexivity.
Defined.

(** C9: [getContainerStatus] never fails; when the inspection fails, for
    instance because the container does not exist, it returns the status
    [error], not running, with the error's message. *)
Theorem getContainerStatus_total env ref w :
  (exists st, fst (getContainerStatus env ref w) = Ok st) /\
  (forall e, fst (container_inspect env ref w) = Throw e ->
     fst (getContainerStatus env ref w) = Ok (mkStatus ref "error" false None (Some (errMessage e)))) /\
  (find_container ref (containers w) = None ->
     fst (getContainerStatus env ref w) =
     Ok (mkStatus ref "error" false None (Some (errMessage (no_such_container ref))))).
Proof.
  rewrite getContainerStatus_result. cbn [fst].
  split; [eauto|split].
  - intros e H. rewrite container_inspect_result in H. cbn [fst] in H.
    rewrite H. reflexivity.
  - intro F. unfold inspect_res. rewrite F. reflexivity.
Qed.

Lemma getContainerStatus_total_witness :
  fst (getContainerStatus env_ok "abc" world_empty) =
  Ok (mkStatus "abc" "error" false None (Some (errMessage (no_such_container "abc")))).
Proof.
  exact (proj2 (proj2 (getContainerStatus_total env_ok "abc" world_empty)) eq_refl).
Defined.

(** C10: a failed container listing during the check of port [p] makes
    [isPortInUse(p)] answer [false]. Hence, when [p] of [3001, 4000] is held
    by no record with status [CREATING] or [RUNNING] and the listing made
    for [p] fails, [allocatePort] does not fail: it returns a port no
    greater than [p], held by no such record, every lower port being held
    or published. When every listing fails, it returns the lowest port
    held by no such record. *)
Theorem allocatePort_listing_outage env w :
  db_fault env FindActivePorts = None ->
  (forall p w0, list_fault env p <> None -> isPortInUse env p w0 = (Ok false, add_log CallList w0)) /\
  (forall p, MIN_PORT <= p <= MAX_PORT -> ~ In p (store_active_ports w) ->
     list_fault env p <> None ->
     exists q, fst (allocatePort env w) = Ok q /\ MIN_PORT <= q <= p /\
               ~ In q (store_active_ports w) /\
               forall q', MIN_PORT <= q' < q ->
                          In q' (store_active_ports w) \/ bound_live env (containers w) q') /\
  ((forall p, list_fault env p <> None) ->
   forall p, MIN_PORT <= p <= MAX_PORT -> ~ In p (store_active_ports w) ->
     exists q, fst (allocatePort env w) = Ok q /\ MIN_PORT <= q <= p /\
               ~ In q (store_active_ports w) /\
               forall q', MIN_PORT <= q' < q -> In q' (store_active_ports w)).
Proof.
  intro Hdb.
  assert (Hnb : forall q, list_fault env q <> None -> ~ bound_live env (containers w) q).
  { intros q Hq [l [ci [Hl _]]]. unfold runtime_listing in Hl.
    destruct (list_fault env q) eqn:E; [discriminate|]. exact (Hq eq_refl). }
  assert (Hone : forall p, MIN_PORT <= p <= MAX_PORT -> ~ In p (store_active_ports w) ->
     list_fault env p <> None ->
     exists q, fst (allocatePort env w) = Ok q /\ MIN_PORT <= q <= p /\
               ~ In q (store_active_ports w) /\
               forall q', MIN_PORT <= q' < q ->
                          In q' (store_active_ports w) \/ bound_live env (containers w) q').
  { intros p Hp Hnu Hlp.
    destruct (allocatePort_spec env w Hdb)
      as [_ [_ [[q [Hq [Hr [Hqu [_ Hlow]]]]] | [_ Hall]]]].
    + exists q. split; [exact Hq|].
      assert (Hqp : q <= p).
      { destruct (Z_le_gt_dec q p) as [|Hgt]; [assumption|].
        destruct (Hlow p ltac:(lia)) as [H|H]; [contradiction|exfalso; exact (Hnb p Hlp H)]. }
      split; [lia|]. split; [exact Hqu|exact Hlow].
    + destruct (Hall p Hp) as [H|H]; [contradiction|exfalso; exact (Hnb p Hlp H)]. }
  split; [|split; [exact Hone|]].
  - intros p w0 Hlp. rewrite isPortInUse_result. unfold port_in_use_b.
    destruct (list_fault env p) eqn:E; [reflexivity|]. exfalso; exact (Hlp eq_refl).
  - intros Hlf p Hp Hnu.
    destruct (Hone p Hp Hnu (Hlf p)) as [q [Hq [Hr [Hqu Hlow]]]].
    exists q. split; [exact Hq|]. split; [exact Hr|]. split; [exact Hqu|].
    intros q' Hq'. destruct (Hlow q' Hq') as [H|H]; [exact H|].
    exfalso; exact (Hnb q' (Hlf q') H).
Qed.

(** Port 3002 is published by a running container, but its listing fails:
    the allocator hands it out. *)
Lemma allocatePort_listing_outage_witness :
  (exists q, fst (allocatePort env_listing_partial world_busy_ports) = Ok q /\ q <= 3002) /\
  fst (allocatePort env_listing_partial world_busy_ports) = Ok 3002.
Proof.
  split; [|vm_compute; reflexivity].
  destruct (proj1 (proj2 (allocatePort_listing_outage env_listing_partial world_busy_ports
                     eq_refl)) 3002
                  ltac:(vm_compute; split; discriminate)
                  ltac:(vm_compute; intros [H|[]]; discriminate)
                  ltac:(vm_compute; discriminate))
    as [q [Hq [Hr _]]].
  exists q. split; [exact Hq|lia].
Defined.

(** ** Further lemmas on requests *)

Lemma try_catch_throwing_ok {A} (m : M A) (f : Exn -> Exn) w a w' :
  try_catch m (fun e => throw (f e)) w = (Ok a, w') -> m w = (Ok a, w').
Proof.
  unfold try_catch, throw. destruct (m w) as [[a'|e] w1]; [auto|discriminate].
Qed.

Lemma allocatePort_ok_frame env w p w' :
  allocatePort env w = (Ok p, w') -> records w' = records w /\ containers w' = containers w.
Proof.
  intro H. destruct (db_fault env FindActivePorts) eqn:Hdb.
  - unfold allocatePort, db_findActivePorts, try_catch, bind, or_throw in H.
    rewrite Hdb in H. discriminate.
  - destruct (allocatePort_spec env w Hdb) as [Hr [Hc _]].
    rewrite H in Hr, Hc. split; assumption.
Qed.

Lemma docker_createContainer_ok env name p w ref w' :
  docker_createContainer env name p w = (Ok ref, w') ->
  ref = fresh_container_id env /\
  existsb (fun c => String.eqb (cName c) name) (containers w) = false /\
  records w' = records w /\
  containers w' = (containers w ++ [mkContainer ref name false "created" p (Some "dummy-api")])%list.
Proof.
  unfold docker_createContainer, bind, modify, or_throw, get, ret, throw.
  destruct (create_fault env p); [discriminate|].
  cbn [containers add_log records set_containers].
  destruct (existsb (fun c => String.eqb (cName c) name) (containers w)) eqn:E;
    [discriminate|].
  intro H. injection H as <- <-. repeat split.
Qed.

Lemma createContainer_ok_effect env uid w info w' :
  createContainer env uid w = (Ok info, w') ->
  exists w1,
    allocatePort env w = (Ok (ci_port info), w1) /\
    ci_containerId info = fresh_container_id env /\
    ci_containerName info = "api-instance-" ++ uid ++ "-" ++ Z_to_string (now env) /\
    ci_url info = base_url env ++ ":" ++ Z_to_string (ci_port info) /\
    ci_status info = "created" /\
    existsb (fun c => String.eqb (cName c) (ci_containerName info)) (containers w) = false /\
    records w' = records w /\
    containers w' = (containers w ++ [mkContainer (ci_containerId info) (ci_containerName info)
                                       false "created" (ci_port info) (Some "dummy-api")])%list.
Proof.
  unfold createContainer. intro H. apply try_rethrow_ok_inv in H.
  apply bind_ok_inv in H as [p [w1 [Hp Hk]]]. cbv zeta in Hk.
  apply bind_ok_inv in Hk as [ref [w2 [Hc Hret]]].
  unfold ret in Hret. injection Hret as <- <-. cbn [ci_port ci_containerId ci_containerName
                                                     ci_url ci_status].
  destruct (allocatePort_ok_frame env w p w1 Hp) as [Hr1 Hc1].
  destruct (docker_createContainer_ok env _ p w1 ref w2 Hc) as [Href [Hn [Hr2 Hc2]]].
  exists w1. rewrite <- Hc1. repeat split; try assumption; congruence.
Qed.

Lemma find_container_app_l x cs cs' c :
  find_container x cs = Some c -> find_container x (cs ++ cs')%list = Some c.
Proof.
  unfold find_container. induction cs as [|c0 cs IH]; [discriminate|].
  simpl. destruct (String.eqb (cId c0) x); [auto|exact IH].
Qed.

Lemma find_container_map_update x f cs :
  (forall c, cId (f c) = cId c) ->
  find_container x (map (fun c => if String.eqb (cId c) x then f c else c) cs) =
  option_map f (find_container x cs).
Proof.
  intro Hf. unfold find_container. induction cs as [|c cs IH]; [reflexivity|].
  simpl. destruct (String.eqb (cId c) x) eqn:E.
  - rewrite Hf, E. reflexivity.
  - rewrite E. exact IH.
Qed.

Lemma startContainer_ok env ref w w' :
  startContainer env ref w = (Ok tt, w') ->
  records w' = records w /\
  exists c, find_container ref (containers w') = Some c /\ cRunning c = true.
Proof.
  unfold startContainer. intro H. apply try_rethrow_ok_inv in H.
  revert H. unfold container_start, update_container, lookup_container, or_throw,
    bind, modify, get, ret, throw.
  cbn [containers add_log records set_containers].
  destruct (find_container ref (containers w)) as [c|] eqn:F; [|discriminate].
  destruct (start_fault env ref); [discriminate|].
  intro H. injection H as <-. cbn [records containers set_containers add_log].
  split; [reflexivity|].
  rewrite find_container_map_update by reflexivity. rewrite F.
  eexists; split; reflexivity.
Qed.

Lemma db_updateInstance_ok env iid f w w' :
  db_updateInstance env iid f w = (Ok tt, w') ->
  records w' = update_by_id iid f (records w) /\ containers w' = containers w.
Proof.
  unfold db_updateInstance, or_throw, bind, get, modify, ret, throw.
  destruct (db_fault env UpdateInstance); [discriminate|].
  destruct (existsb (fun r => String.eqb (id r) iid) (records w)); [|discriminate].
  intro H. injection H as <-. split; reflexivity.
Qed.

Lemma update_by_id_app_fresh iid f rs r :
  (forall r', In r' rs -> id r' <> iid) -> id r = iid ->
  update_by_id iid f (rs ++ [r])%list = (rs ++ [f r])%list.
Proof.
  intros Hrs Hr. unfold update_by_id. rewrite map_app. cbn [map].
  rewrite Hr, String.eqb_refl. f_equal.
  rewrite <- (map_id rs) at 2. apply map_ext_in. intros a Ha.
  destruct (String.eqb (id a) iid) eqn:E; [|reflexivity].
  apply String.eqb_eq in E. exfalso. exact (Hrs a Ha E).
Qed.

Lemma db_createInstance_ok env r w inst w' :
  db_createInstance env r w = (Ok inst, w') ->
  inst = r /\ records w' = (records w ++ [r])%list /\ containers w' = containers w /\
  (forall r', In r' (records w) -> id r' <> id r).
Proof.
  unfold db_createInstance, or_throw, bind, get, modify, ret, throw.
  destruct (db_fault env CreateInstance); [discriminate|].
  destruct (existsb (fun r' => String.eqb (id r') (id r)
                               || String.eqb (containerId r') (containerId r)
                               || String.eqb (containerName r') (containerName r))
                    (records w)) eqn:E; [discriminate|].
  intro H. injection H as <- <-. repeat split.
  intros r' Hin Heq. apply (existsb_false_forall _ _ E) in Hin.
  rewrite Heq, String.eqb_refl in Hin. discriminate.
Qed.

(** X: a successful [POST /api/instances] appends exactly one record, with
    status [RUNNING], owned by the caller, not stopped, with a fresh id and
    a port held by no active record before; its container runs. *)
Theorem create_instance_success env uid w r w' :
  create_instance env (Some uid) w = (Ok (Created r), w') ->
  records w' = (records w ++ [r])%list /\
  status r = "RUNNING" /\ userId r = uid /\ stoppedAt r = None /\
  id r = fresh_instance_id env /\
  (forall r', In r' (records w) -> id r' <> id r) /\
  ~ In (port r) (store_active_ports w) /\
  exists c, find_container (containerId r) (containers w') = Some c /\ cRunning c = true.
Proof.
  unfold create_instance, authenticated. intro H.
  apply try_catch_throwing_ok in H.
  apply bind_ok_inv in H as [u1 [w1 [H1 H]]].
  apply bind_ok_inv in H as [info [w2 [H2 H]]].
  apply bind_ok_inv in H as [inst [w3 [H3 H]]].
  apply bind_ok_inv in H as [u4 [w4 [H4 H]]]. destruct u4.
  apply bind_ok_inv in H as [u5 [w5 [H5 H]]]. destruct u5.
  unfold ret in H. injection H as <- <-.
  pose proof (keeps _ (initialize env) w (Ok u1) w1 (kr_initialize env) H1) as Hr1.
  pose proof (createContainer_ok_port env uid w1 info w2 H2) as Hport.
  destruct (createContainer_ok_effect env uid w1 info w2 H2)
    as [_ [_ [_ [_ [_ [_ [_ [Hr2 _]]]]]]]].
  destruct (db_createInstance_ok env _ w2 inst w3 H3) as [-> [Hr3 [_ Hfresh]]].
  destruct (startContainer_ok env _ w3 w4 H4) as [Hr4 [c [Hc Hrun]]].
  destruct (db_updateInstance_ok env _ _ w4 w5 H5) as [Hr5 Hc5].
  unfold store_active_ports in *. rewrite Hr1 in Hport.
  rewrite Hr2, Hr1 in Hfresh.
  cbn [with_status id status userId stoppedAt port containerId] in *.
  repeat split; try assumption.
  - rewrite Hr5, Hr4, Hr3, Hr2, Hr1. apply update_by_id_app_fresh; [exact Hfresh|reflexivity].
  - exists c. rewrite Hc5. split; assumption.
Qed.

Lemma create_instance_success_witness :
  records (snd (create_instance env_ok (Some "u") world_empty)) =
  [with_status "RUNNING" (mkInstance "i1" "u" "c1" "api-instance-u-1000"
                            "http://localhost:3001" 3001 "CREATING" 1000 None)].
Proof.
  destruct (create_instance_success env_ok "u" world_empty
              (with_status "RUNNING" (mkInstance "i1" "u" "c1" "api-instance-u-1000"
                                        "http://localhost:3001" 3001 "CREATING" 1000 None))
              (snd (create_instance env_ok (Some "u") world_empty))
              ltac:(vm_compute; reflexivity)) as [H _].
  rewrite H. reflexivity.
Defined.

(** X: [createContainer] names the container [api-instance-<userId>-<now>],
    builds the URL [<BASE_URL>:<port>], and adds exactly one container to
    the runtime: not started, labelled [dummy-api], bound to the allocated
    port. Calling it again for the same user with the same clock fails with
    the runtime's name conflict, whenever the allocation and the runtime's
    create call succeed. *)
Theorem createContainer_name_conflict env uid w info w' :
  createContainer env uid w = (Ok info, w') ->
  ci_containerName info = "api-instance-" ++ uid ++ "-" ++ Z_to_string (now env) /\
  ci_url info = base_url env ++ ":" ++ Z_to_string (ci_port info) /\
  ci_status info = "created" /\
  records w' = records w /\
  containers w' = (containers w ++ [mkContainer (ci_containerId info) (ci_containerName info)
                                     false "created" (ci_port info) (Some "dummy-api")])%list /\
  (forall p w3, allocatePort env w' = (Ok p, w3) -> create_fault env p = None ->
     createContainer env uid w' =
     (Throw (ErrorObj ("Container creation failed: (HTTP code 409) unexpected - Conflict. The container name "
                       ++ ci_containerName info ++ " is already in use")),
      add_log (CallCreate p) w3)).
Proof.
  intro H.
  destruct (createContainer_ok_effect env uid w info w' H)
    as [w1 [_ [_ [Hname [Hurl [Hst [_ [Hr Hc]]]]]]]].
  repeat split; try assumption.
  intros p w3 Hp Hf.
  destruct (allocatePort_ok_frame env w' p w3 Hp) as [_ Hc3].
  unfold createContainer, try_catch. rewrite (bind_ok_step _ _ _ _ _ Hp). cbv zeta.
  rewrite <- Hname.
  unfold docker_createContainer, bind, modify, or_throw, get, throw, ret. rewrite Hf.
  cbn [containers add_log]. rewrite Hc3, Hc, existsb_app. cbn [existsb cName].
  rewrite String.eqb_refl, orb_true_r. reflexivity.
Qed.

Lemma createContainer_name_conflict_witness :
  fst (createContainer env_ok "u" (snd (createContainer env_ok "u" world_empty))) =
  Throw (ErrorObj ("Container creation failed: (HTTP code 409) unexpected - Conflict. The container name "
                   ++ "api-instance-u-1000" ++ " is already in use")).
Proof.
  destruct (createContainer_name_conflict env_ok "u" world_empty
              (mkCreated "c1" "api-instance-u-1000" 3001 "http://localhost:3001" "created")
              (snd (createContainer env_ok "u" world_empty))
              ltac:(vm_compute; reflexivity)) as [_ [_ [_ [_ [_ H]]]]].
  rewrite (H 3001 (snd (allocatePort env_ok (snd (createContainer env_ok "u" world_empty))))
             ltac:(vm_compute; reflexivity) ltac:(reflexivity)).
  reflexivity.
Defined.

Lemma db_createInstance_fault env r w e :
  db_fault env CreateInstance = Some e -> db_createInstance env r w = (Throw e, w).
Proof.
  intro H. unfold db_createInstance, or_throw, bind. rewrite H. reflexivity.
Qed.

Lemma initialize_fault env w e :
  ping_fault env = Some e ->
  initialize env w = (Throw (ErrorObj "Docker daemon is not available"), add_log CallPing w).
Proof.
  intro H. unfold initialize, docker_ping, try_catch, bind, modify, or_throw. rewrite H.
  reflexivity.
Qed.

(** X: when the database insert fails after the container was created, the
    request fails with [Failed to create instance: <message>] and the new
    container stays in the runtime with no record; the next reaper run in
    which the runtime and the store answer removes it, as long as container
    ids are distinct and no record names its id. *)
Theorem create_db_failure_leaks_container env env' uid w w1 w2 info e :
  initialize env w = (Ok tt, w1) ->
  createContainer env uid w1 = (Ok info, w2) ->
  db_fault env CreateInstance = Some e ->
  create_instance env (Some uid) w =
    (Throw (ApiErrorObj ("Failed to create instance: " ++ errMessage e) 500), w2) /\
  records w2 = records w /\
  In (mkContainer (ci_containerId info) (ci_containerName info) false "created"
                  (ci_port info) (Some "dummy-api")) (containers w2) /\
  (label_list_fault env' = None -> db_fault env' FindAllContainerIds = None ->
   (forall ref, remove_fault env' ref = None) ->
   NoDup (map cId (containers w2)) ->
   ~ In (ci_containerId info) (map containerId (records w)) ->
   ~ In (ci_containerId info) (map cId (containers (snd (cleanupOrphanedContainers env' w2))))).
Proof.
  intros H1 H2 Hf.
  pose proof (keeps _ (initialize env) w (Ok tt) w1 (kr_initialize env) H1) as Hr1.
  destruct (createContainer_ok_effect env uid w1 info w2 H2)
    as [_ [_ [_ [_ [_ [_ [_ [Hr2 Hc2]]]]]]]].
  set (nc := mkContainer (ci_containerId info) (ci_containerName info) false "created"
                         (ci_port info) (Some "dummy-api")).
  assert (Hin : In nc (containers w2))
    by (rewrite Hc2; apply in_or_app; right; left; reflexivity).
  split.
  - unfold create_instance, authenticated, try_catch at 1.
    rewrite (bind_ok_step _ _ _ _ _ H1). cbv beta.
    rewrite (bind_ok_step _ _ _ _ _ H2). cbv beta.
    rewrite (bind_throw_step _ _ _ _ _ (db_createInstance_fault env _ w2 e Hf)).
    reflexivity.
  - split; [congruence|]. split; [exact Hin|].
    intros Hl Hdb Hrf Hnd Hnrec Hgone.
    rewrite (cleanup_result env' w2 Hl Hdb Hrf) in Hgone.
    apply in_map_iff in Hgone as [c [Hid Hc]]. apply filter_In in Hc as [Hc Hp].
    assert (c = nc) as -> by exact (NoDup_map_inj cId _ c nc Hnd Hc Hin Hid).
    rewrite (proj2 (in_filter_labelled_orphan _ _ nc Hnd Hin)) in Hp; [discriminate|].
    split; [reflexivity|]. rewrite Hr2, Hr1. exact Hnrec.
Qed.

Lemma create_db_failure_leaks_container_witness :
  ~ In "c1" (map cId (containers (snd (cleanupOrphanedContainers env_ok
        (snd (create_instance env_insert_fails (Some "u") world_empty)))))).
Proof.
  destruct (create_db_failure_leaks_container env_insert_fails env_ok "u" world_empty
              (snd (initialize env_insert_fails world_empty))
              (snd (createContainer env_insert_fails "u" (snd (initialize env_insert_fails world_empty))))
              (mkCreated "c1" "api-instance-u-1000" 3001 "http://localhost:3001" "created")
              (ErrorObj "Can't reach database server at localhost:5432")
              ltac:(vm_compute; reflexivity) ltac:(vm_compute; reflexivity)
              ltac:(reflexivity)) as [Hcreate [_ [_ Hreap]]].
  rewrite Hcreate.
  exact (Hreap eq_refl eq_refl (fun _ => eq_refl)
               ltac:(vm_compute; repeat constructor; simpl; tauto)
               ltac:(vm_compute; tauto)).
Defined.

(** X: when the Docker daemon does not answer the ping, [POST
    /api/instances] fails with [Failed to create instance: Docker daemon is
    not available], the daemon's own error being dropped, after no runtime
    call but the ping and with no change to the store or the runtime. *)
Theorem create_daemon_unavailable env uid w e :
  ping_fault env = Some e ->
  create_instance env (Some uid) w =
  (Throw (ApiErrorObj "Failed to create instance: Docker daemon is not available" 500),
   add_log CallPing w).
Proof.
  intro H. unfold create_instance, authenticated, try_catch at 1.
  rewrite (bind_throw_step _ _ _ _ _ (initialize_fault env w e H)). reflexivity.
Qed.

Lemma create_daemon_unavailable_witness :
  fst (create_instance env_daemon_down (Some "u") world_running) =
  Throw (ApiErrorObj "Failed to create instance: Docker daemon is not available" 500).
Proof.
  rewrite (create_daemon_unavailable env_daemon_down "u" world_running
             (ErrorObj "connect ENOENT /var/run/docker.sock") eq_refl).
  reflexivity.
Defined.

(** ** Removal and deletion *)

Lemma try_catch_ret_snd {A} (m : M A) (a : A) w :
  snd (try_catch m (fun _ => ret a) w) = snd (m w).
Proof. unfold try_catch. destruct (m w) as [[a'|e] w1]; reflexivity. Qed.

Lemma snd_rethrow {A} (m : M A) pre w :
  snd (try_catch m (rethrow_with pre) w) = snd (m w).
Proof. unfold try_catch, rethrow_with. destruct (m w) as [[a'|e] w1]; reflexivity. Qed.

Lemma container_stop_log env x w :
  rt_log (snd (container_stop env x w)) = (rt_log w ++ [CallStop x])%list.
Proof.
  unfold container_stop, update_container, lookup_container, or_throw,
    bind, modify, get, ret, throw.
  cbn [containers add_log].
  destruct (find_container x _) as [c|]; [|reflexivity].
  destruct (stop_fault env x); [reflexivity|].
  destruct (cRunning c); reflexivity.
Qed.

Lemma container_remove_force_log env x w :
  rt_log (snd (container_remove_force env x w)) = (rt_log w ++ [CallRemove x])%list.
Proof.
  rewrite container_remove_force_result.
  destruct (find_container x (containers w)); [|reflexivity].
  destruct (remove_fault env x); reflexivity.
Qed.

Lemma removeContainer_present env x w :
  find_container x (containers w) <> None -> remove_fault env x = None ->
  exists w1, removeContainer env x w = (Ok tt, w1) /\
             records w1 = records w /\
             containers w1 = filter (fun c => negb (String.eqb (cId c) x)) (containers w).
Proof.
  intros Hin Hrf.
  pose proof Hin as Hin'.
  apply find_container_some_iff in Hin' as [c0 [Hc0 Hid]].
  destruct (remove_prelude env x w) as [w2 [Hp Hc2]].
  assert (Hf2 : find_container x (containers w2) <> None).
  { apply find_container_some_iff.
    destruct Hc2 as [-> | [f [Hf ->]]]; [eauto|].
    exists (if String.eqb (cId c0) x then f c0 else c0). split.
    - exact (in_map (fun c => if String.eqb (cId c) x then f c else c) _ _ Hc0).
    - destruct (String.eqb (cId c0) x); [rewrite Hf|]; exact Hid. }
  assert (Hrm : removeContainer env x w =
                (Ok tt, set_containers
                          (filter (fun c => negb (String.eqb (cId c) x)) (containers w2))
                          (add_log (CallRemove x) w2))).
  { unfold removeContainer, try_catch at 1, bind at 1. rewrite Hp.
    rewrite container_remove_force_result.
    destruct (find_container x (containers w2)); [|congruence].
    rewrite Hrf. reflexivity. }
  eexists. split; [exact Hrm|]. split.
  - pose proof (kr_removeContainer env x w) as Hk. rewrite Hrm in Hk. exact Hk.
  - cbn [containers set_containers].
    destruct Hc2 as [-> | [f [Hf ->]]]; [reflexivity|].
    apply filter_neq_id_map; exact Hf.
Qed.

(** X: [removeContainer] always inspects the container first and always
    ends with the forced removal; it calls [stop] in between exactly when
    the inspection reports the container running. *)
Theorem removeContainer_calls env ref w :
  rt_log (snd (removeContainer env ref w)) =
  (rt_log w ++ CallInspect ref ::
     (match inspect_res env (containers w) ref with
      | Ok c => if cRunning c then [CallStop ref] else []
      | Throw _ => []
      end) ++ [CallRemove ref])%list.
Proof.
  assert (Hp : rt_log (snd (try_catch (info <- container_inspect env ref ;;
                                       if cRunning info then stopContainer env ref else ret tt)
                                      (fun _ => ret tt) w)) =
               (rt_log w ++ CallInspect ref ::
                  match inspect_res env (containers w) ref with
                  | Ok c => if cRunning c then [CallStop ref] else []
                  | Throw _ => []
                  end)%list).
  { rewrite try_catch_ret_snd, bind_snd, container_inspect_result.
    destruct (inspect_res env (containers w) ref) as [c|e].
    - destruct (cRunning c).
      + unfold stopContainer. rewrite snd_rethrow, container_stop_log. cbn [rt_log add_log].
        rewrite <- app_assoc. reflexivity.
      + reflexivity.
    - reflexivity. }
  unfold removeContainer. rewrite snd_rethrow, bind_snd.
  destruct (remove_prelude env ref w) as [w2 [E _]].
  rewrite E in Hp |- *. cbn [snd] in Hp.
  rewrite container_remove_force_log, Hp, <- app_assoc. reflexivity.
Qed.

Lemma removeContainer_calls_witness :
  rt_log (snd (removeContainer env_ok "abc" world_running)) =
  [CallInspect "abc"; CallStop "abc"; CallRemove "abc"].
Proof. rewrite removeContainer_calls. reflexivity. Defined.

(** X: [removeContainer] on a container that exists succeeds whenever the
    runtime's forced removal succeeds, even if the inspection or the stop
    fails; it removes the containers with that id and no other, and leaves
    the record store alone. *)
Theorem removeContainer_existing env ref w :
  find_container ref (containers w) <> None -> remove_fault env ref = None ->
  fst (removeContainer env ref w) = Ok tt /\
  records (snd (removeContainer env ref w)) = records w /\
  containers (snd (removeContainer env ref w)) =
  filter (fun c => negb (String.eqb (cId c) ref)) (containers w).
Proof.
  intros Hin Hrf. destruct (removeContainer_present env ref w Hin Hrf) as [w1 [E [Hr Hc]]].
  rewrite E. repeat split; assumption.
Qed.

Lemma removeContainer_existing_witness :
  containers (snd (removeContainer env_stop_fails "abc" world_running)) = [].
Proof.
  exact (proj2 (proj2 (removeContainer_existing env_stop_fails "abc" world_running
                         ltac:(vm_compute; discriminate) eq_refl))).
Defined.

Lemma db_findFirstInstance_result env iid uid w :
  db_fault env FindInstances = None ->
  db_findFirstInstance env iid uid w =
  (Ok (find (fun r => String.eqb (id r) iid && String.eqb (userId r) uid && not_stopped r)
            (records w)), w).
Proof. intro H. unfold db_findFirstInstance, or_throw, bind, get, ret. rewrite H. reflexivity. Qed.

Lemma db_findFirstOwned_result env iid uid w :
  db_fault env FindInstances = None ->
  db_findFirstOwned env iid uid w =
  (Ok (find (fun r => String.eqb (id r) iid && String.eqb (userId r) uid) (records w)), w).
Proof. intro H. unfold db_findFirstOwned, or_throw, bind, get, ret. rewrite H. reflexivity. Qed.

Lemma db_updateInstance_present env iid f w :
  db_fault env UpdateInstance = None ->
  existsb (fun r => String.eqb (id r) iid) (records w) = true ->
  db_updateInstance env iid f w = (Ok tt, set_records (update_by_id iid f (records w)) w).
Proof.
  intros Hf He. unfold db_updateInstance, or_throw, bind, get, modify, ret.
  rewrite Hf. cbv beta iota. rewrite He. reflexivity.
Qed.

Lemma delete_not_found env uid iid w :
  String.eqb iid "" = false -> db_fault env FindInstances = None ->
  find (fun r => String.eqb (id r) iid && String.eqb (userId r) uid && not_stopped r)
       (records w) = None ->
  delete_instance env (Some uid) iid w = (Throw (ApiErrorObj "Instance not found" 404), w).
Proof.
  intros He Hdb Hf. unfold delete_instance, authenticated. rewrite He. cbv beta iota.
  unfold try_catch at 1.
  rewrite (bind_ok_step _ _ _ _ _ (db_findFirstInstance_result env iid uid w Hdb)), Hf.
  reflexivity.
Qed.

Lemma get_not_found env uid iid w :
  String.eqb iid "" = false -> db_fault env FindInstances = None ->
  find (fun r => String.eqb (id r) iid && String.eqb (userId r) uid && not_stopped r)
       (records w) = None ->
  get_instance env (Some uid) iid w = (Throw (ApiErrorObj "Instance not found" 404), w).
Proof.
  intros He Hdb Hf. unfold get_instance, require_user. rewrite He. cbv beta iota.
  unfold try_catch at 1.
  rewrite (bind_ok_step _ _ _ _ _ (db_findFirstInstance_result env iid uid w Hdb)), Hf.
  reflexivity.
Qed.

Lemma logs_not_found env logs_of uid iid tail w :
  String.eqb iid "" = false -> db_fault env FindInstances = None ->
  find (fun r => String.eqb (id r) iid && String.eqb (userId r) uid) (records w) = None ->
  get_logs env logs_of (Some uid) iid tail w = (Throw (ApiErrorObj "Instance not found" 404), w).
Proof.
  intros He Hdb Hf. unfold get_logs, require_user. rewrite He. cbv beta iota.
  unfold try_catch at 1.
  rewrite (bind_ok_step _ _ _ _ _ (db_findFirstOwned_result env iid uid w Hdb)), Hf.
  reflexivity.
Qed.

Lemma find_after_stop iid t q rs :
  find (fun r => String.eqb (id r) iid && q r && not_stopped r)
       (update_by_id iid (with_stopped t) rs) = None.
Proof.
  induction rs as [|r rs IH]; [reflexivity|]. unfold update_by_id in *. cbn [map find].
  destruct (String.eqb (id r) iid) eqn:E.
  - cbn [with_stopped id not_stopped stoppedAt]. rewrite E, andb_false_r. exact IH.
  - rewrite E. cbn [andb]. exact IH.
Qed.

Lemma delete_ok env uid iid w inst :
  String.eqb iid "" = false -> db_fault env FindInstances = None ->
  db_fault env UpdateInstance = None ->
  find (fun r => String.eqb (id r) iid && String.eqb (userId r) uid && not_stopped r)
       (records w) = Some inst ->
  find_container (containerId inst) (containers w) <> None ->
  remove_fault env (containerId inst) = None ->
  exists w', delete_instance env (Some uid) iid w = (Ok Deleted, w') /\
             records w' = update_by_id iid (with_stopped (now env)) (records w) /\
             containers w' = filter (fun c => negb (String.eqb (cId c) (containerId inst)))
                                    (containers w).
Proof.
  intros He Hdb Hup Hf Hc Hrf.
  apply find_some in Hf as Hf'. destruct Hf' as [Hin Hp].
  apply andb_prop in Hp as [Hp _]. apply andb_prop in Hp as [Hid _].
  apply String.eqb_eq in Hid.
  destruct (removeContainer_present env _ w Hc Hrf) as [w1 [Hrm [Hr1 Hc1]]].
  assert (Hex : existsb (fun r => String.eqb (id r) (id inst)) (records w1) = true).
  { apply existsb_exists. exists inst. rewrite Hr1. split; [exact Hin|apply String.eqb_refl]. }
  unfold delete_instance, authenticated. rewrite He. cbv beta iota.
  unfold try_catch at 1.
  rewrite (bind_ok_step _ _ _ _ _ (db_findFirstInstance_result env iid uid w Hdb)), Hf.
  cbv beta iota.
  rewrite (bind_ok_step _ _ _ _ _ Hrm).
  rewrite (bind_ok_step _ _ _ _ _ (db_updateInstance_present env _ (with_stopped (now env)) w1
                                     Hup Hex)).
  eexists. split; [reflexivity|]. cbn [records containers set_records].
  rewrite Hr1, Hid. split; [reflexivity|exact Hc1].
Qed.

(** X: deleting the caller's active instance whose container exists
    succeeds whenever the store and the runtime's forced removal do: the
    record (and any record with the same id) becomes [STOPPED] with
    [stoppedAt] set to the request's clock, the container is gone, and a
    second [DELETE] or a [GET] of the same id then answers [404 Instance
    not found]. *)
Theorem delete_instance_success env uid iid w inst :
  String.eqb iid "" = false -> db_fault env FindInstances = None ->
  db_fault env UpdateInstance = None ->
  find (fun r => String.eqb (id r) iid && String.eqb (userId r) uid && not_stopped r)
       (records w) = Some inst ->
  find_container (containerId inst) (containers w) <> None ->
  remove_fault env (containerId inst) = None ->
  fst (delete_instance env (Some uid) iid w) = Ok Deleted /\
  records (snd (delete_instance env (Some uid) iid w)) =
    update_by_id iid (with_stopped (now env)) (records w) /\
  find_container (containerId inst) (containers (snd (delete_instance env (Some uid) iid w)))
    = None /\
  fst (delete_instance env (Some uid) iid (snd (delete_instance env (Some uid) iid w))) =
    Throw (ApiErrorObj "Instance not found" 404) /\
  fst (get_instance env (Some uid) iid (snd (delete_instance env (Some uid) iid w))) =
    Throw (ApiErrorObj "Instance not found" 404).
Proof.
  intros He Hdb Hup Hf Hc Hrf.
  destruct (delete_ok env uid iid w inst He Hdb Hup Hf Hc Hrf) as [w' [E [Hr Hc']]].
  rewrite E. cbn [fst snd].
  assert (Hnf : find (fun r => String.eqb (id r) iid && String.eqb (userId r) uid
                               && not_stopped r) (records w') = None)
    by (rewrite Hr; apply find_after_stop).
  split; [reflexivity|]. split; [exact Hr|]. split.
  - rewrite Hc'. apply find_container_filter_neq.
  - rewrite (delete_not_found env uid iid w' He Hdb Hnf),
            (get_not_found env uid iid w' He Hdb Hnf).
    split; reflexivity.
Qed.

Lemma delete_instance_success_witness :
  fst (delete_instance env_ok (Some "u") "i1" world_running) = Ok Deleted.
Proof.
  exact (proj1 (delete_instance_success env_ok "u" "i1" world_running
                  (instance_abc "RUNNING" None) eq_refl eq_refl eq_refl
                  ltac:(vm_compute; reflexivity) ltac:(vm_compute; discriminate) eq_refl)).
Defined.

Lemma map_id_update_by_id iid f rs :
  (forall r, id (f r) = id r) -> map id (update_by_id iid f rs) = map id rs.
Proof.
  intro Hf. unfold update_by_id. rewrite map_map. apply map_ext. intro r.
  destruct (String.eqb (id r) iid); [apply Hf|reflexivity].
Qed.

Lemma find_none_absent {A} (f : A -> bool) (l : list A) :
  (forall x, In x l -> f x = false) -> find f l = None.
Proof.
  induction l as [|x l IH]; intro H; [reflexivity|]. cbn [find].
  rewrite (H x (or_introl eq_refl)). apply IH. intros y Hy. apply H; right; exact Hy.
Qed.

Lemma find_unique_id iid q x rs :
  NoDup (map id rs) -> In x rs -> id x = iid ->
  find (fun r => String.eqb (id r) iid && q r) rs = if q x then Some x else None.
Proof.
  induction rs as [|r rs IH]; [intros _ []|].
  intros Hnd Hx Hid. cbn [map] in Hnd. inversion Hnd as [|? ? Hnin Hnd']; subst.
  cbn [find]. destruct Hx as [<-|Hx].
  - rewrite String.eqb_refl. cbn [andb]. destruct (q r); [reflexivity|].
    apply find_none_absent. intros r' Hr'. destruct (String.eqb (id r') (id r)) eqn:E;
      [|reflexivity].
    apply String.eqb_eq in E. exfalso. apply Hnin. rewrite <- E. apply in_map; exact Hr'.
  - destruct (String.eqb (id r) (id x)) eqn:E.
    + apply String.eqb_eq in E. exfalso. apply Hnin. rewrite E. apply in_map; exact Hx.
    + cbn [andb]. exact (IH Hnd' Hx eq_refl).
Qed.

Lemma getContainerLogs_absent logs_of ref t w :
  find_container ref (containers w) = None ->
  getContainerLogs logs_of ref t w =
  (Throw (ErrorObj ("Failed to get container logs: " ++ errMessage (no_such_container ref))), w).
Proof.
  intro F. unfold getContainerLogs, container_logs, lookup_container, try_catch, bind, get,
    rethrow_with, throw. rewrite F. reflexivity.
Qed.

(** X: [GET /api/instances/:id/logs] looks the record up without the
    [stoppedAt] filter of the other routes, so after the caller deleted an
    instance (ids being distinct), asking for its logs does not answer 404
    like [GET /api/instances/:id] but fails with [500 Failed to fetch logs:
    Failed to get container logs: (HTTP code 404) no such container - ...]. *)
Theorem logs_after_delete env logs_of uid iid tail w inst :
  String.eqb iid "" = false -> db_fault env FindInstances = None ->
  db_fault env UpdateInstance = None ->
  NoDup (map id (records w)) ->
  find (fun r => String.eqb (id r) iid && String.eqb (userId r) uid && not_stopped r)
       (records w) = Some inst ->
  find_container (containerId inst) (containers w) <> None ->
  remove_fault env (containerId inst) = None ->
  get_logs env logs_of (Some uid) iid tail (snd (delete_instance env (Some uid) iid w)) =
  (Throw (ApiErrorObj ("Failed to fetch logs: Failed to get container logs: "
                       ++ errMessage (no_such_container (containerId inst))) 500),
   snd (delete_instance env (Some uid) iid w)).
Proof.
  intros He Hdb Hup Hnd Hf Hc Hrf.
  apply find_some in Hf as Hf'. destruct Hf' as [Hin Hp].
  apply andb_prop in Hp as [Hp _]. apply andb_prop in Hp as [Hid Huid].
  apply String.eqb_eq in Hid.
  destruct (delete_ok env uid iid w inst He Hdb Hup Hf Hc Hrf) as [w' [E [Hr Hc']]].
  rewrite E. cbn [snd].
  assert (Hown : find (fun r => String.eqb (id r) iid && String.eqb (userId r) uid)
                      (records w') = Some (with_stopped (now env) inst)).
  { rewrite Hr. rewrite (find_unique_id iid (fun r => String.eqb (userId r) uid)
                           (with_stopped (now env) inst)).
    - cbn [with_stopped userId]. rewrite Huid. reflexivity.
    - rewrite map_id_update_by_id by reflexivity. exact Hnd.
    - unfold update_by_id.
      replace (with_stopped (now env) inst)
        with ((fun r => if String.eqb (id r) iid then with_stopped (now env) r else r) inst)
        by (cbv beta; rewrite Hid, String.eqb_refl; reflexivity).
      exact (in_map (fun r => if String.eqb (id r) iid then with_stopped (now env) r else r)
                    _ _ Hin).
    - exact Hid. }
  unfold get_logs, require_user. rewrite He. cbv beta iota. unfold try_catch at 1.
  rewrite (bind_ok_step _ _ _ _ _ (db_findFirstOwned_result env iid uid w' Hdb)), Hown.
  cbv beta iota. cbn [containerId with_stopped].
  assert (Hgone : find_container (containerId inst) (containers w') = None)
    by (rewrite Hc'; apply find_container_filter_neq).
  rewrite (bind_throw_step _ _ _ _ _ (getContainerLogs_absent logs_of _ (tail_arg tail) w' Hgone)).
  reflexivity.
Qed.

Lemma logs_after_delete_witness :
  fst (get_logs env_ok logs_ok (Some "u") "i1" None
                (snd (delete_instance env_ok (Some "u") "i1" world_running))) =
  Throw (ApiErrorObj ("Failed to fetch logs: Failed to get container logs: "
                      ++ errMessage (no_such_container "abc")) 500).
Proof.
  rewrite (logs_after_delete env_ok logs_ok "u" "i1" None world_running
             (instance_abc "RUNNING" None) eq_refl eq_refl eq_refl
             ltac:(vm_compute; repeat constructor; simpl; tauto)
             ltac:(vm_compute; reflexivity) ltac:(vm_compute; discriminate) eq_refl).
  reflexivity.
Defined.

Lemma logs_found_not_404 env logs_of uid iid tail w inst :
  String.eqb iid "" = false -> db_fault env FindInstances = None ->
  find (fun r => String.eqb (id r) iid && String.eqb (userId r) uid) (records w) = Some inst ->
  fst (get_logs env logs_of (Some uid) iid tail w) <> Throw (ApiErrorObj "Instance not found" 404).
Proof.
  intros He Hdb Hf. unfold get_logs, require_user. rewrite He. cbv beta iota.
  unfold try_catch at 1.
  rewrite (bind_ok_step _ _ _ _ _ (db_findFirstOwned_result env iid uid w Hdb)), Hf.
  cbv beta iota. unfold bind at 1, getContainerLogs, try_catch at 1.
  destruct (container_logs logs_of (containerId inst) (tail_arg tail) w) as [[l|e] w1];
    cbn; congruence.
Qed.

(** X: when the caller has no record with the given id that is not
    stopped (none at all, another user's, or a stopped one), [DELETE] and
    [GET /api/instances/:id] answer [404 Instance not found] with no runtime
    call and no change; [GET .../logs] does so exactly when the caller has
    no record with that id at all: a stopped record of the caller does not
    give 404 there. *)
Theorem instance_not_found env logs_of uid iid tail w :
  String.eqb iid "" = false -> db_fault env FindInstances = None ->
  (find (fun r => String.eqb (id r) iid && String.eqb (userId r) uid && not_stopped r)
        (records w) = None ->
   delete_instance env (Some uid) iid w = (Throw (ApiErrorObj "Instance not found" 404), w) /\
   get_instance env (Some uid) iid w = (Throw (ApiErrorObj "Instance not found" 404), w)) /\
  (find (fun r => String.eqb (id r) iid && String.eqb (userId r) uid) (records w) = None ->
   get_logs env logs_of (Some uid) iid tail w = (Throw (ApiErrorObj "Instance not found" 404), w)) /\
  (forall inst,
   find (fun r => String.eqb (id r) iid && String.eqb (userId r) uid) (records w) = Some inst ->
   fst (get_logs env logs_of (Some uid) iid tail w) <> Throw (ApiErrorObj "Instance not found" 404)).
Proof.
  intros He Hdb. split; [|split].
  - intro Hf. split; [apply delete_not_found|apply get_not_found]; assumption.
  - intro Hf. apply logs_not_found; assumption.
  - intros inst Hf. apply (logs_found_not_404 env logs_of uid iid tail w inst); assumption.
Qed.

Lemma instance_not_found_witness :
  delete_instance env_ok (Some "v") "i1" world_running =
  (Throw (ApiErrorObj "Instance not found" 404), world_running) /\
  get_instance env_ok (Some "u") "i1" world_stopped_record =
  (Throw (ApiErrorObj "Instance not found" 404), world_stopped_record) /\
  fst (get_logs env_ok logs_ok (Some "u") "i1" None world_stopped_record) <>
  Throw (ApiErrorObj "Instance not found" 404).
Proof.
  split; [|split].
  - exact (proj1 (proj1 (instance_not_found env_ok logs_ok "v" "i1" None world_running
                           eq_refl eq_refl) ltac:(vm_compute; reflexivity))).
  - exact (proj2 (proj1 (instance_not_found env_ok logs_ok "u" "i1" None world_stopped_record
                           eq_refl eq_refl) ltac:(vm_compute; reflexivity))).
  - exact (proj2 (proj2 (instance_not_found env_ok logs_ok "u" "i1" None world_stopped_record
                           eq_refl eq_refl)) _ ltac:(vm_compute; reflexivity)).
Defined.

(** ** Listing and reading *)

Lemma insert_desc_In r rs x : In x (insert_desc r rs) <-> r = x \/ In x rs.
Proof.
  induction rs as [|r' rs IH]; cbn [insert_desc]; [simpl; tauto|].
  destruct (createdAt r' <? createdAt r); simpl; [tauto|]. rewrite IH. tauto.
Qed.

Lemma insert_desc_length r rs : length (insert_desc r rs) = S (length rs).
Proof.
  induction rs as [|r' rs IH]; cbn [insert_desc]; [reflexivity|].
  destruct (createdAt r' <? createdAt r); simpl; [reflexivity|]. rewrite IH. reflexivity.
Qed.

Lemma insert_desc_hd a r rs :
  HdRel (fun x y => createdAt y <= createdAt x) a rs -> createdAt r <= createdAt a ->
  HdRel (fun x y => createdAt y <= createdAt x) a (insert_desc r rs).
Proof.
  intros H Hr. destruct rs as [|r' rs]; cbn [insert_desc]; [constructor; exact Hr|].
  destruct (createdAt r' <? createdAt r); constructor; [exact Hr|].
  inversion H; assumption.
Qed.

Lemma insert_desc_sorted r rs :
  Sorted (fun x y => createdAt y <= createdAt x) rs ->
  Sorted (fun x y => createdAt y <= createdAt x) (insert_desc r rs).
Proof.
  induction rs as [|r' rs IH]; intro H; cbn [insert_desc]; [repeat constructor|].
  destruct (createdAt r' <? createdAt r) eqn:E.
  - apply Z.ltb_lt in E. constructor; [exact H|constructor; lia].
  - apply Z.ltb_ge in E. apply Sorted_inv in H as [Hs Hh].
    constructor; [exact (IH Hs)|]. apply insert_desc_hd; [exact Hh|lia].
Qed.

Lemma fold_insert_desc l :
  Sorted (fun x y => createdAt y <= createdAt x) (fold_right insert_desc [] l) /\
  length (fold_right insert_desc [] l) = length l /\
  (forall x, In x (fold_right insert_desc [] l) <-> In x l).
Proof.
  induction l as [|r l [IHs [IHl IHi]]]; cbn [fold_right].
  - repeat split; [constructor|tauto|tauto].
  - split; [apply insert_desc_sorted; exact IHs|]. split.
    + rewrite insert_desc_length, IHl. reflexivity.
    + intro x. rewrite insert_desc_In, IHi. simpl. tauto.
Qed.

Lemma Forall2_in_r {A B} (R : A -> B -> Prop) l1 l2 y :
  Forall2 R l1 l2 -> In y l2 -> exists x, In x l1 /\ R x y.
Proof.
  induction 1 as [|x' y' l1 l2 Hr _ IH]; [intros []|].
  intros [<-|Hy]; [exists x'; split; [left|]; auto|].
  destruct (IH Hy) as [x [Hx Hr']]. exists x. split; [right|]; auto.
Qed.

Lemma Forall2_in_l {A B} (R : A -> B -> Prop) l1 l2 x :
  Forall2 R l1 l2 -> In x l1 -> exists y, In y l2 /\ R x y.
Proof.
  induction 1 as [|x' y' l1 l2 Hr _ IH]; [intros []|].
  intros [<-|Hx]; [exists y'; split; [left|]; auto|].
  destruct (IH Hx) as [y [Hy Hr']]. exists y. split; [right|]; auto.
Qed.

Lemma Forall2_sorted_entries (f : ApiInstance -> string) rs es :
  Forall2 (fun r en => en = entry_of r (f r)) rs es ->
  Sorted (fun x y => createdAt y <= createdAt x) rs ->
  Sorted (fun x y => e_createdAt y <= e_createdAt x) es.
Proof.
  induction 1 as [|r en rs es Hre Hall IH]; intro Hs; [constructor|].
  apply Sorted_inv in Hs as [Hs Hh]. constructor; [exact (IH Hs)|].
  destruct Hall as [|r2 en2 rs2 es2 Hre2 _]; [constructor|].
  constructor. inversion Hh. subst. cbn [entry_of e_createdAt]. assumption.
Qed.

Lemma db_findInstances_result env uid w :
  db_fault env FindInstances = None ->
  db_findInstances env uid w =
  (Ok (fold_right insert_desc []
         (filter (fun r => String.eqb (userId r) uid && not_stopped r) (records w))), w).
Proof. intro H. unfold db_findInstances, or_throw, bind, get, ret. rewrite H. reflexivity. Qed.

(** X: when the store query succeeds, [GET /api/instances] lists exactly
    the caller's instances that are not stopped: one entry per such record,
    each carrying that record's fields, newest [createdAt] first. *)
Theorem list_instances_scope env uid w :
  db_fault env FindInstances = None ->
  exists es,
    fst (list_instances env (Some uid) w) = Ok (Listed es) /\
    Sorted (fun x y => e_createdAt y <= e_createdAt x) es /\
    length es = length (filter (fun r => String.eqb (userId r) uid && not_stopped r)
                               (records w)) /\
    (forall en, In en es -> exists r, In r (records w) /\ userId r = uid /\
                                      stoppedAt r = None /\ en = entry_of r (e_status en)) /\
    (forall r, In r (records w) -> userId r = uid -> stoppedAt r = None ->
               exists en, In en es /\ en = entry_of r (e_status en)).
Proof.
  intro Hdb.
  rewrite (list_instances_unfold env uid w _ (db_findInstances_result env uid w Hdb)).
  set (P := fun r => String.eqb (userId r) uid && not_stopped r).
  destruct (fold_insert_desc (filter P (records w))) as [Hs [Hl Hi]].
  destruct (mapM_list_entry env (fold_right insert_desc [] (filter P (records w))) w)
    as [es [w' [E [_ Hf]]]].
  rewrite E. exists es. split; [reflexivity|]. split.
  { exact (Forall2_sorted_entries _ _ _ Hf Hs). }
  split; [rewrite <- Hl; symmetry; exact (Forall2_length Hf)|]. split.
  - intros en Hen. destruct (Forall2_in_r _ _ _ _ Hf Hen) as [r [Hr ->]].
    apply Hi, filter_In in Hr as [Hr Hp]. unfold P in Hp.
    apply andb_prop in Hp as [Hu Hns]. apply String.eqb_eq in Hu.
    exists r. repeat split; try assumption.
    unfold not_stopped in Hns. destruct (stoppedAt r); [discriminate|reflexivity].
  - intros r Hr Hu Hns.
    assert (Hin : In r (fold_right insert_desc [] (filter P (records w)))).
    { apply Hi, filter_In. split; [exact Hr|]. unfold P, not_stopped.
      rewrite Hu, Hns, String.eqb_refl. reflexivity. }
    destruct (Forall2_in_l _ _ _ _ Hf Hin) as [en [Hen ->]].
    exists (entry_of r (reported_status (status_of (containerId r)
              (inspect_res env (containers w) (containerId r))))).
    split; [exact Hen|reflexivity].
Qed.

Lemma list_instances_scope_witness :
  exists es, fst (list_instances env_ok (Some "u") world_stopped_record) = Ok (Listed es) /\
             length es = 0%nat.
Proof.
  destruct (list_instances_scope env_ok "u" world_stopped_record eq_refl)
    as [es [E [_ [L _]]]].
  exists es. split; [exact E|]. rewrite L. reflexivity.
Defined.

(** X: [GET /api/instances/:id] on the caller's instance that is not
    stopped succeeds whenever the store query does, even when the container
    is gone: the entry carries the record's fields and the status re-derived
    from one inspection ([RUNNING], the state in upper case, or [ERROR]);
    nothing but that inspection reaches the runtime. *)
Theorem get_instance_found env uid iid w inst :
  String.eqb iid "" = false -> db_fault env FindInstances = None ->
  find (fun r => String.eqb (id r) iid && String.eqb (userId r) uid && not_stopped r)
       (records w) = Some inst ->
  get_instance env (Some uid) iid w =
  (Ok (Fetched (entry_of inst
         (match inspect_res env (containers w) (containerId inst) with
          | Ok c => if cRunning c then "RUNNING" else toUpperCase (cState c)
          | Throw _ => "ERROR"
          end))),
   add_log (CallInspect (containerId inst)) w).
Proof.
  intros He Hdb Hf. unfold get_instance, require_user. rewrite He. cbv beta iota.
  unfold try_catch at 1.
  rewrite (bind_ok_step _ _ _ _ _ (db_findFirstInstance_result env iid uid w Hdb)), Hf.
  cbv beta iota.
  rewrite (bind_ok_step _ _ _ _ _ (getContainerStatus_result env (containerId inst) w)).
  destruct (inspect_res env (containers w) (containerId inst)); reflexivity.
Qed.

Lemma get_instance_found_witness :
  fst (get_instance env_ok (Some "u") "i1" world_missing_container) =
  Ok (Fetched (entry_of (instance_abc "RUNNING" None) "ERROR")).
Proof.
  rewrite (get_instance_found env_ok "u" "i1" world_missing_container
             (instance_abc "RUNNING" None) eq_refl eq_refl ltac:(vm_compute; reflexivity)).
  reflexivity.
Defined.

(** ** Reads leave the state alone *)

Lemma ks_ret {A} (a : A) : keeps_store (ret a).
Proof. intro w. split; reflexivity. Qed.

Lemma ks_throw {A} (e : Exn) : keeps_store (@throw A e).
Proof. intro w. split; reflexivity. Qed.

Lemma ks_get : keeps_store get.
Proof. intro w. split; reflexivity. Qed.

Lemma ks_or_throw (f : option Exn) : keeps_store (or_throw f).
Proof. destruct f; [apply ks_throw|apply ks_ret]. Qed.

Lemma ks_bind {A B} (m : M A) (k : A -> M B) :
  keeps_store m -> (forall a, keeps_store (k a)) -> keeps_store (bind m k).
Proof.
  intros Hm Hk w. unfold bind. destruct (Hm w) as [H1 H2].
  destruct (m w) as [[a|e] w1]; cbn [snd] in *; [|split; assumption].
  destruct (Hk a w1) as [H3 H4]. split; congruence.
Qed.

Lemma ks_try {A} (m : M A) (h : Exn -> M A) :
  keeps_store m -> (forall e, keeps_store (h e)) -> keeps_store (try_catch m h).
Proof.
  intros Hm Hh w. unfold try_catch. destruct (Hm w) as [H1 H2].
  destruct (m w) as [[a|e] w1]; cbn [snd] in *; [split; assumption|].
  destruct (Hh e w1) as [H3 H4]. split; congruence.
Qed.

Lemma ks_mapM {A B} (f : A -> M B) (xs : list A) :
  (forall x, keeps_store (f x)) -> keeps_store (mapM f xs).
Proof.
  intro Hf. induction xs as [|x xs IH]; cbn [mapM]; [apply ks_ret|].
  apply ks_bind; [apply Hf|intro]. apply ks_bind; [exact IH|intro]. apply ks_ret.
Qed.

Lemma ks_getContainerStatus env ref : keeps_store (getContainerStatus env ref).
Proof. intro w. rewrite getContainerStatus_result. split; reflexivity. Qed.

Create HintDb store.
#[local] Hint Resolve ks_ret ks_throw ks_get ks_or_throw ks_getContainerStatus : store.

Ltac store_solve :=
  repeat (match goal with
          | |- keeps_store (bind _ _) => apply ks_bind; [|intro]
          | |- keeps_store (try_catch _ _) => apply ks_try; [|intro]
          | |- keeps_store (mapM _ _) => apply ks_mapM; intro
          | |- keeps_store (rethrow_with _ _) => unfold rethrow_with
          | |- keeps_store (match ?x with _ => _ end) => destruct x
          | |- keeps_store (if ?b then _ else _) => destruct b
          end || auto with store).

Lemma ks_lookup_container ref : keeps_store (lookup_container ref).
Proof. unfold lookup_container; store_solve. Qed.
#[local] Hint Resolve ks_lookup_container : store.

Lemma ks_list_entry env inst : keeps_store (list_entry env inst).
Proof. unfold list_entry; store_solve. Qed.
#[local] Hint Resolve ks_list_entry : store.

Lemma ks_db_findFirstInstance env iid uid : keeps_store (db_findFirstInstance env iid uid).
Proof. unfold db_findFirstInstance; store_solve. Qed.

Lemma ks_db_findFirstOwned env iid uid : keeps_store (db_findFirstOwned env iid uid).
Proof. unfold db_findFirstOwned; store_solve. Qed.

Lemma ks_db_findInstances env uid : keeps_store (db_findInstances env uid).
Proof. unfold db_findInstances; store_solve. Qed.

Lemma ks_getContainerLogs logs_of ref tail : keeps_store (getContainerLogs logs_of ref tail).
Proof. unfold getContainerLogs, container_logs; store_solve. Qed.
#[local] Hint Resolve ks_db_findFirstInstance ks_db_findFirstOwned ks_db_findInstances
  ks_getContainerLogs : store.

(** X: the three [GET] routes ([/api/instances], [/api/instances/:id] and
    [/api/instances/:id/logs]) never change the record store or the
    runtime's containers, whatever fails: they only read (and inspect). *)
Theorem read_routes_keep_store env logs_of user iid tail :
  keeps_store (list_instances env user) /\
  keeps_store (get_instance env user iid) /\
  keeps_store (get_logs env logs_of user iid tail).
Proof.
  unfold list_instances, get_instance, get_logs, authenticated, require_user.
  split; [|split]; destruct user; store_solve.
Qed.

(** ** Which errors reach the client *)

Lemma NoApi_ret {A} (a : A) : NoApi (ret a).
Proof. intro w. reflexivity. Qed.

Lemma NoApi_get : NoApi get.
Proof. intro w. reflexivity. Qed.

Lemma NoApi_modify f : NoApi (modify f).
Proof. intro w. reflexivity. Qed.

Lemma NoApi_throw {A} (e : Exn) : isApiError e = false -> NoApi (@throw A e).
Proof. intros H w. cbn. rewrite H. reflexivity. Qed.

Lemma NoApi_or_throw (f : option Exn) :
  (forall e, f = Some e -> isApiError e = false) -> NoApi (or_throw f).
Proof. destruct f; intro H; [apply NoApi_throw, H|apply NoApi_ret]; reflexivity. Qed.

Lemma NoApi_bind {A B} (m : M A) (k : A -> M B) :
  NoApi m -> (forall a, NoApi (k a)) -> NoApi (bind m k).
Proof.
  intros Hm Hk w. unfold bind. specialize (Hm w).
  destruct (m w) as [[a|e] w1]; [apply Hk|exact Hm].
Qed.

Lemma NoApi_try {A} (m : M A) (h : Exn -> M A) :
  (forall e, NoApi (h e)) -> NoApi (try_catch m h).
Proof. intros Hh w. unfold try_catch. destruct (m w) as [[a|e] w1]; [reflexivity|apply Hh]. Qed.

Lemma NoApi_rethrow {A} pre (e : Exn) : NoApi (@rethrow_with A pre e).
Proof. apply NoApi_throw. reflexivity. Qed.

Section DbErrors.

Variable env : Env.
Hypothesis db_plain : forall d e, db_fault env d = Some e -> isApiError e = false.

Lemma NoApi_db_findFirstInstance iid uid : NoApi (db_findFirstInstance env iid uid).
Proof.
  unfold db_findFirstInstance. apply NoApi_bind; [apply NoApi_or_throw, db_plain|intro].
  apply NoApi_bind; [apply NoApi_get|intro]. apply NoApi_ret.
Qed.

Lemma NoApi_db_findFirstOwned iid uid : NoApi (db_findFirstOwned env iid uid).
Proof.
  unfold db_findFirstOwned. apply NoApi_bind; [apply NoApi_or_throw, db_plain|intro].
  apply NoApi_bind; [apply NoApi_get|intro]. apply NoApi_ret.
Qed.

Lemma NoApi_db_updateInstance iid f : NoApi (db_updateInstance env iid f).
Proof.
  unfold db_updateInstance. apply NoApi_bind; [apply NoApi_or_throw, db_plain|intro].
  apply NoApi_bind; [apply NoApi_get|intro w].
  destruct (existsb _ _); [apply NoApi_modify|apply NoApi_throw; reflexivity].
Qed.

End DbErrors.

Lemma NoApi_removeContainer env ref : NoApi (removeContainer env ref).
Proof. unfold removeContainer. apply NoApi_try. intro. apply NoApi_rethrow. Qed.

Lemma NoApi_getContainerStatus env ref : NoApi (getContainerStatus env ref).
Proof. unfold getContainerStatus. apply NoApi_try. intro. apply NoApi_ret. Qed.

Lemma NoApi_getContainerLogs logs_of ref tail : NoApi (getContainerLogs logs_of ref tail).
Proof. unfold getContainerLogs. apply NoApi_try. intro. apply NoApi_rethrow. Qed.

Lemma api_reported {A} node_env codes m c :
  In c codes -> fails_reported node_env codes (@Throw A (ApiErrorObj m c)).
Proof.
  intro Hc. exists m, c. split; [reflexivity|]. split; [exact Hc|].
  unfold errorHandler. cbn. destruct (String.eqb node_env "production"); split; reflexivity.
Qed.

Lemma catch500_reported {A} (m : M A) pre node_env codes w :
  In 500 codes ->
  fails_reported node_env codes
    (fst (try_catch m (fun e => throw (ApiErrorObj (pre ++ errMessage e) 500)) w)).
Proof.
  intro H5. unfold try_catch. destruct (m w) as [[a|e] w1]; [exact I|].
  cbv [throw fst]. apply api_reported, H5.
Qed.

Lemma catch_api_reported {A} (m : M A) pre node_env codes w :
  In 500 codes ->
  (forall msg c, fst (m w) = Throw (ApiErrorObj msg c) -> In c codes) ->
  fails_reported node_env codes
    (fst (try_catch m (fun e => if isApiError e then throw e
                                else throw (ApiErrorObj (pre ++ errMessage e) 500)) w)).
Proof.
  intros H5 Hm. unfold try_catch. destruct (m w) as [[a|e] w1]; [exact I|].
  destruct e as [msg|msg c|]; cbv [isApiError throw fst]; try (apply api_reported, H5).
  apply api_reported, (Hm msg c). reflexivity.
Qed.

(** The body shared by the three routes on one instance: the only
    [ApiError] it can throw is the 404 of a missing instance. *)
Lemma body_404 {A B} (f : M (option A)) (k : A -> M B) w msg c :
  NoApi f -> (forall a, NoApi (k a)) ->
  fst (bind f (fun found => match found with
                            | None => throw (ApiErrorObj "Instance not found" 404)
                            | Some a => k a
                            end) w) = Throw (ApiErrorObj msg c) ->
  c = 404.
Proof.
  intros Hf Hk. unfold bind. specialize (Hf w).
  destruct (f w) as [[[a|]|e] w1]; cbn [fst] in *.
  - specialize (Hk a w1). intro H. rewrite H in Hk. discriminate.
  - intro H. injection H as _ <-. reflexivity.
  - intro H. injection H as ->. discriminate.
Qed.

(** X: every failure of the five instance routes is an [ApiError], so the
    error middleware answers with that error's own status and message, in
    production too: [401] or [500] for creating and listing, and [401],
    [400], [404] or [500] for the routes on one instance, as long as the
    database client never throws an [ApiError] itself. *)
Theorem route_failures_reported env logs_of node_env user iid tail w :
  (forall d e, db_fault env d = Some e -> isApiError e = false) ->
  fails_reported node_env [401; 500] (fst (create_instance env user w)) /\
  fails_reported node_env [401; 500] (fst (list_instances env user w)) /\
  fails_reported node_env [401; 400; 404; 500] (fst (delete_instance env user iid w)) /\
  fails_reported node_env [401; 400; 404; 500] (fst (get_instance env user iid w)) /\
  fails_reported node_env [401; 400; 404; 500] (fst (get_logs env logs_of user iid tail w)).
Proof.
  intro Hdb.
  unfold create_instance, list_instances, delete_instance, get_instance, get_logs,
    authenticated, require_user.
  destruct user as [uid|];
    [|repeat split; apply api_reported; simpl; tauto].
  split; [apply catch500_reported; simpl; tauto|].
  split; [apply catch500_reported; simpl; tauto|].
  destruct (String.eqb iid "");
    [repeat split; apply api_reported; simpl; tauto|].
  repeat split; apply catch_api_reported; try (simpl; tauto); intros msg c H;
    apply body_404 in H; try (subst; simpl; tauto).
  - apply NoApi_db_findFirstInstance, Hdb.
  - intro inst. apply NoApi_bind; [apply NoApi_removeContainer|intro].
    apply NoApi_bind; [apply NoApi_db_updateInstance, Hdb|intro]. apply NoApi_ret.
  - apply NoApi_db_findFirstInstance, Hdb.
  - intro inst. apply NoApi_bind; [apply NoApi_getContainerStatus|intro]. apply NoApi_ret.
  - apply NoApi_db_findFirstOwned, Hdb.
  - intro inst. apply NoApi_bind; [apply NoApi_getContainerLogs|intro]. apply NoApi_ret.
Qed.

Lemma route_failures_reported_witness :
  fails_reported "production" [401; 400; 404; 500]
    (fst (delete_instance env_db_down (Some "u") "i1" world_running)) /\
  fst (delete_instance env_db_down (Some "u") "i1" world_running) =
  Throw (ApiErrorObj "Failed to delete instance: Can't reach database server at localhost:5432" 500).
Proof.
  split; [|vm_compute; reflexivity].
  refine (proj1 (proj2 (proj2 (route_failures_reported env_db_down logs_ok "production"
            (Some "u") "i1" None world_running _)))).
  intros d e H. vm_compute in H. injection H as <-. reflexivity.
Defined.

(** ** What the reaper leaves *)

Lemma removeContainer_frame env x w c :
  In c (containers w) -> cId c <> x ->
  In c (containers (snd (removeContainer env x w))).
Proof.
  intros Hin Hne.
  assert (Hx : String.eqb (cId c) x = false) by (apply String.eqb_neq; exact Hne).
  destruct (remove_prelude env x w) as [w2 [Hp Hc2]].
  assert (H2 : In c (containers w2)).
  { destruct Hc2 as [-> | [f [_ ->]]]; [exact Hin|].
    pose proof (in_map (fun c => if String.eqb (cId c) x then f c else c) _ _ Hin) as H.
    cbv beta in H. rewrite Hx in H. exact H. }
  unfold removeContainer, try_catch at 1, bind at 1. rewrite Hp.
  rewrite container_remove_force_result.
  destruct (find_container x (containers w2)); [destruct (remove_fault env x)|];
    cbv [snd rethrow_with throw]; cbn [containers set_containers add_log]; try exact H2.
  apply filter_In. split; [exact H2|]. rewrite Hx. reflexivity.
Qed.

Lemma reap_one_ok env ids ci w : fst (reap_one env ids ci w) = Ok tt.
Proof.
  unfold reap_one. destruct (negb _); [|reflexivity].
  unfold try_catch. destruct (removeContainer env (ciId ci) w) as [[[]|e] w1]; reflexivity.
Qed.

Lemma reap_one_frame env ids ci w c :
  In c (containers w) -> cId c <> ciId ci ->
  In c (containers (snd (reap_one env ids ci w))).
Proof.
  intros Hin Hne. unfold reap_one. destruct (negb _); [|exact Hin].
  pose proof (removeContainer_frame env (ciId ci) w c Hin Hne) as H.
  unfold try_catch. destruct (removeContainer env (ciId ci) w) as [[u|e] w1]; exact H.
Qed.

Lemma forEach_reap_frame env ids L : forall w c,
  In c (containers w) -> (forall ci, In ci L -> ciId ci <> cId c) ->
  In c (containers (snd (forEach (reap_one env ids) L w))).
Proof.
  induction L as [|ci L IH]; intros w c Hin HL; [exact Hin|].
  cbn [forEach]. unfold bind at 1.
  pose proof (reap_one_ok env ids ci w) as Hok.
  pose proof (reap_one_frame env ids ci w c Hin
                (fun E => HL ci (or_introl eq_refl) (eq_sym E))) as Hf.
  destruct (reap_one env ids ci w) as [r w1]. cbn [fst snd] in Hok, Hf. subst r.
  apply IH; [exact Hf|]. intros ci' Hci'. apply HL. right. exact Hci'.
Qed.

Lemma cleanup_ok env w : fst (cleanupOrphanedContainers env w) = Ok tt.
Proof.
  unfold cleanupOrphanedContainers, try_catch.
  destruct (bind (docker_listContainers_label env) _ w) as [[[]|e] w1]; reflexivity.
Qed.

Lemma cleanup_spares env w c :
  NoDup (map cId (containers w)) -> In c (containers w) -> has_service_label c = false ->
  In c (containers (snd (cleanupOrphanedContainers env w))).
Proof.
  intros Hnd Hin Hl.
  unfold cleanupOrphanedContainers, docker_listContainers_label, db_findAllContainerIds,
    try_catch, bind, modify, or_throw, get, ret.
  destruct (label_list_fault env); [exact Hin|].
  destruct (db_fault env FindAllContainerIds); [exact Hin|].
  cbn [containers records add_log].
  set (L := map to_info (filter has_service_label (containers w))).
  assert (HL : forall ci, In ci L -> ciId ci <> cId c).
  { intros ci Hci E. apply in_map_iff in Hci as [c' [<- Hc']].
    apply filter_In in Hc' as [Hc' Hl'].
    rewrite (NoDup_map_inj cId _ c' c Hnd Hc' Hin E) in Hl'. congruence. }
  pose proof (forEach_reap_frame env (map containerId (records w)) L
                (add_log CallListLabel w) c Hin HL) as H.
  destruct (forEach _ _ _) as [[u|e] w']; exact H.
Qed.

(** X: whatever the runtime and the database do,
    [cleanupOrphanedContainers] never fails and never changes the record
    store; and it leaves every container without the label
    [api-hub.service=dummy-api] in place (container ids being unique). *)
Theorem reaper_spares_unlabelled env :
  (forall w, fst (cleanupOrphanedContainers env w) = Ok tt /\
             records (snd (cleanupOrphanedContainers env w)) = records w) /\
  (forall w c, NoDup (map cId (containers w)) -> In c (containers w) ->
               has_service_label c = false ->
               In c (containers (snd (cleanupOrphanedContainers env w)))).
Proof.
  split.
  - intro w. split; [apply cleanup_ok|apply kr_cleanupOrphanedContainers].
  - exact (cleanup_spares env).
Qed.

Lemma reaper_spares_unlabelled_witness :
  In (mkContainer "side" "db" true "running" 5432 None)
     (containers (snd (cleanupOrphanedContainers env_ok
        (mkWorld [] [container_abc true; mkContainer "side" "db" true "running" 5432 None] [])))).
Proof.
  refine (proj2 (reaper_spares_unlabelled env_ok)
            (mkWorld [] [container_abc true; mkContainer "side" "db" true "running" 5432 None] [])
            (mkContainer "side" "db" true "running" 5432 None) _ _ _).
  - vm_compute. repeat constructor; simpl; intuition discriminate.
  - simpl. right. left. reflexivity.
  - reflexivity.
Defined.
